(** * A user-record REST service (api.py): model and verified properties

    The program is a Flask application with two Flask-RESTful resources,
    [Users] (/api/users/) and [User] (/api/users/<email>), over one
    SQLAlchemy model, [UserModel]. The class declares no table name, so
    Flask-SQLAlchemy stores it in the table [user_model].

    The development follows the source top-down: the values the handlers
    pass around, the exceptions they raise, the session (a unit of work
    over the table, inside a transaction), the request parser [user_args],
    the marshaller [marshal_with(userFields)], the five handlers, each
    written statement by statement in a state-and-exception monad, and the
    URL map that binds a path to a resource. *)

From Stdlib Require Import ZArith Ascii.
From stdpp Require Import gmap strings list pretty.

Set Warnings "-register-all".

Local Open Scope Z_scope.
Local Open Scope string_scope.
Local Open Scope list_scope.

(** ** Values *)

(** JSON documents, as sent in response bodies. A Python dict keeps its
    insertion order, hence the association list. *)
Inductive json : Type :=
  | JNull
  | JInt (z : Z)
  | JStr (s : string)
  | JList (l : list json)
  | JDict (kv : list (string * json)).

(** An instance of [class UserModel(db.Model)]. Python attributes may hold
    [None]: a freshly constructed instance has no [id] before it is flushed,
    and a parsed argument may be a JSON null. *)
Record UserModel : Type := mkUserModel {
  id : option Z;
  email : option string;
  first_name : option string;
  last_name : option string
}.

#[global] Instance UserModel_eq_dec : EqDecision UserModel.
Proof. solve_decision. Defined.

(** The Python objects a handler can return to [marshal_with]. *)
Inductive pyobj : Type :=
  | PyNone
  | PyInt (z : Z)
  | PyStr (s : string)
  | PyUser (u : UserModel)
  | PyList (l : list pyobj).

(** The attributes of a loaded [UserModel] that the handlers assign to. *)
Inductive column : Type := col_first_name | col_last_name.

#[global] Instance column_eq_dec : EqDecision column.
Proof. solve_decision. Defined.

Definition column_name (c : column) : string :=
  match c with
  | col_first_name => "first_name"
  | col_last_name => "last_name"
  end.

Definition set_column (c : column) (v : option string) (u : UserModel) : UserModel :=
  match c with
  | col_first_name => mkUserModel (id u) (email u) v (last_name u)
  | col_last_name => mkUserModel (id u) (email u) (first_name u) v
  end.

(** ** Exceptions *)

Inductive exn : Type :=
  (** werkzeug's HTTPException as raised by [flask_restful.abort]; [data]
      is the dict of keyword arguments attached to it. *)
  | HTTPException (code : Z) (data : list (string * json))
  (** a call that does not match the callee's signature *)
  | TypeError
  (** [namespace[key]] on an absent key *)
  | KeyError (key : string)
  (** a constraint of the table rejected a statement; the payload is
      SQLite's text, such as "UNIQUE constraint failed: user_model.email" *)
  | IntegrityError (msg : string)
  (** a field's [format] failed *)
  | MarshallingException.

Inductive result (A : Type) : Type :=
  | Ok (a : A)
  | Raise (e : exn).
Arguments Ok {A} a.
Arguments Raise {A} e.

(** ** The session: a unit of work over the table [user_model] *)

(** What [db.session] has recorded and not yet written. *)
Inductive unit_of_work : Type :=
  | New (u : UserModel)                                  (* session.add(u) *)
  | Dirty (pk : option Z) (c : column) (v : option string) (* u.c = v on a loaded u *)
  | Deleted (pk : option Z).                              (* session.delete(u) *)

(** The session works inside a transaction. [table] holds the committed
    rows; [transaction] is the table as the open transaction sees it, with
    what has been flushed and not yet committed; [pending] is what has been
    recorded and not yet flushed. *)
Record Session : Type := mkSession {
  table : list UserModel;       (* the committed rows, in rowid order *)
  transaction : list UserModel; (* the rows inside the open transaction *)
  pending : list unit_of_work
}.

(** The session a request starts with: nothing flushed, nothing pending. *)
Definition begin (t : list UserModel) : Session := mkSession t t [].

(** State and exception monad of a request. *)
Definition M (A : Type) : Type := Session -> result A * Session.

Definition ret {A} (a : A) : M A := fun s => (Ok a, s).

Definition raise {A} (e : exn) : M A := fun s => (Raise e, s).

Definition bind {A B} (m : M A) (k : A -> M B) : M B :=
  fun s =>
    match m s with
    | (Ok a, s') => k a s'
    | (Raise e, s') => (Raise e, s')
    end.

Notation "x <- c ;; k" := (bind c (fun x => k))
  (at level 100, c at next level, right associativity).
Notation "c ;; k" := (bind c (fun _ => k))
  (at level 100, right associativity).

Definition lift {A} (r : result A) : M A := fun s => (r, s).

(** *** Constraints of the table, checked when a statement is flushed *)

Definition has_email (e : string) (u : UserModel) : bool :=
  bool_decide (email u = Some e).

Definition has_pk (pk : option Z) (u : UserModel) : bool :=
  bool_decide (id u = pk).

(** SQLite's rowid for [INTEGER PRIMARY KEY] without AUTOINCREMENT: 1 on an
    empty table, otherwise one more than the largest id in use. *)
Fixpoint max_id (t : list UserModel) : option Z :=
  match t with
  | [] => None
  | u :: t' =>
      match id u, max_id t' with
      | Some i, Some m => Some (Z.max i m)
      | Some i, None => Some i
      | None, m => m
      end
  end.

Definition next_id (t : list UserModel) : Z :=
  match max_id t with
  | None => 1
  | Some m => m + 1
  end.

(** [nullable=False] on email, first_name and last_name. *)
Definition not_null (u : UserModel) : result unit :=
  match email u, first_name u, last_name u with
  | None, _, _ => Raise (IntegrityError "NOT NULL constraint failed: user_model.email")
  | _, None, _ => Raise (IntegrityError "NOT NULL constraint failed: user_model.first_name")
  | _, _, None => Raise (IntegrityError "NOT NULL constraint failed: user_model.last_name")
  | Some _, Some _, Some _ => Ok tt
  end.

(** INSERT INTO user_model (email, first_name, last_name) VALUES ... *)
Definition insert_row (u : UserModel) (t : list UserModel) : result (list UserModel) :=
  match not_null u with
  | Raise e => Raise e
  | Ok _ =>
      if existsb (fun r => bool_decide (email r = email u)) t
      then Raise (IntegrityError "UNIQUE constraint failed: user_model.email")
      else
        match id u with
        | None => Ok (t ++ [mkUserModel (Some (next_id t)) (email u) (first_name u) (last_name u)])
        | Some i =>
            if existsb (has_pk (Some i)) t
            then Raise (IntegrityError "UNIQUE constraint failed: user_model.id")
            else Ok (t ++ [u])
        end
  end.

(** UPDATE user_model SET c = v WHERE user_model.id = pk *)
Definition update_row (pk : option Z) (c : column) (v : option string)
    (t : list UserModel) : result (list UserModel) :=
  match v with
  | None => Raise (IntegrityError ("NOT NULL constraint failed: user_model." +:+ column_name c))
  | Some _ => Ok (map (fun r => if has_pk pk r then set_column c v r else r) t)
  end.

(** DELETE FROM user_model WHERE user_model.id = pk *)
Definition delete_row (pk : option Z) (t : list UserModel) : list UserModel :=
  filter (fun r => has_pk pk r = false) t.

Definition flush_one (w : unit_of_work) (t : list UserModel) : result (list UserModel) :=
  match w with
  | New u => insert_row u t
  | Dirty pk c v => update_row pk c v t
  | Deleted pk => Ok (delete_row pk t)
  end.

Fixpoint flush (ws : list unit_of_work) (t : list UserModel) : result (list UserModel) :=
  match ws with
  | [] => Ok t
  | w :: ws' =>
      match flush_one w t with
      | Ok t' => flush ws' t'
      | Raise e => Raise e
      end
  end.

(** *** Session operations used by the handlers *)

(** [db.session.add(user)] *)
Definition session_add (u : UserModel) : M unit :=
  fun s => (Ok tt, mkSession (table s) (transaction s) (pending s ++ [New u])).

(** [db.session.delete(user)] *)
Definition session_delete (u : UserModel) : M unit :=
  fun s => (Ok tt, mkSession (table s) (transaction s) (pending s ++ [Deleted (id u)])).

(** [user.c = v] on an instance loaded by a query: the instance changes and
    the session records the change. *)
Definition setattr (u : UserModel) (c : column) (v : option string) : M UserModel :=
  fun s => (Ok (set_column c v u),
            mkSession (table s) (transaction s) (pending s ++ [Dirty (id u) c v])).

(** Flushing sends the pending statements to the database inside the open
    transaction: they change what the transaction sees, not what is
    committed. If a statement is rejected the transaction is rolled back
    to the committed rows and the exception propagates. *)
Definition session_flush : M unit :=
  fun s =>
    match flush (pending s) (transaction s) with
    | Ok t' => (Ok tt, mkSession (table s) t' [])
    | Raise e => (Raise e, mkSession (table s) (table s) [])
    end.

(** [db.session.commit()]: flush, then COMMIT: what the transaction sees
    becomes the committed table. *)
Definition session_commit : M unit :=
  session_flush ;;
  fun s => (Ok tt, mkSession (transaction s) (transaction s) (pending s)).

(** A query first flushes what is pending (autoflush), then reads inside
    the transaction. *)
Definition autoflush : M unit := session_flush.

(** [UserModel.query.all()] *)
Definition query_all : M (list UserModel) :=
  autoflush ;; fun s => (Ok (transaction s), s).

(** [UserModel.query.filter_by(email=email).first()] *)
Definition query_filter_by_email_first (e : string) : M (option UserModel) :=
  autoflush ;;
  fun s => (Ok (head (filter (fun r => has_email e r = true) (transaction s))), s).

(** ** flask_restful: abort, reqparse, fields and marshal_with *)

(** [flask_restful.abort(http_status_code, **kwargs)]: the status code is
    its only positional parameter. With keyword arguments alone it raises
    the HTTPException of that code, carrying them as [e.data]; a call that
    passes anything else positionally does not bind to the signature, and
    Python raises TypeError before the body of [abort] runs. *)
Definition abort {A} (http_status_code : Z) (args : list pyobj)
    (kwargs : list (string * json)) : M A :=
  match args with
  | [] => raise (HTTPException http_status_code kwargs)
  | _ :: _ => raise TypeError
  end.

(** The arguments a well-formed request carries (JSON body, query string and
    form), by name. A name that is present maps to [None] for a JSON null, and to
    [Some s] for any other value, held as the text [str] gives for it
    ([type=str]). *)
Abbreviation Request := (gmap string (option string)).

(** [reqparse.Namespace]: the parsed arguments. *)
Abbreviation Namespace := (gmap string (option string)).

Definition getitem (namespace : Namespace) (key : string) : M (option string) :=
  match namespace !! key with
  | Some v => ret v
  | None => raise (KeyError key)
  end.

Module reqparse.

(** [reqparse.Argument(name, type=str, required=..., help=...)]; the other
    options keep their defaults (nullable, store_missing, no choices). *)
Record Argument : Type := mkArgument {
  name : string;
  required : bool;
  help : string
}.

(** [Argument.parse]: the value and whether it was found. A supplied
    value is converted with [str], except null, which is kept (nullable).
    A required argument that is absent is a validation error: the parser
    does not bundle errors, so it aborts at once with status 400 and the
    message {name: help}. *)
Definition parse (arg : Argument) (request : Request) : M (option string * bool) :=
  match request !! name arg with
  | Some value => ret (value, true)
  | None =>
      if required arg
      then abort 400 [] [("message", JDict [(name arg, JStr (help arg))])]
      else ret (None, false)
  end.

(** [RequestParser.parse_args]: the arguments are parsed in the order
    they were added; each value is stored under its name (store_missing
    keeps the default [None] of an optional argument that is absent). *)
Fixpoint parse_args_into (args : list Argument) (request : Request)
    (namespace : Namespace) : M Namespace :=
  match args with
  | [] => ret namespace
  | arg :: args' =>
      vf <- parse arg request ;;
      parse_args_into args' request (<[name arg := fst vf]> namespace)
  end.

Definition parse_args (parser : list Argument) (request : Request) : M Namespace :=
  parse_args_into parser request ∅.

End reqparse.

(** [user_args], lines 52-55 of api.py. *)
Definition user_args : list reqparse.Argument :=
  [ reqparse.mkArgument "email" true "Email can't be blank";
    reqparse.mkArgument "first_name" true "Forname can't be blank";
    reqparse.mkArgument "last_name" true "Surname can't be blank" ].

(** The value of an attribute read off an object. *)
Inductive value : Type :=
  | VNone
  | VInt (z : Z)
  | VStr (s : string).

Definition of_option {A} (f : A -> value) (o : option A) : value :=
  match o with
  | Some a => f a
  | None => VNone
  end.

(** [getattr(obj, key, None)] for the keys of [userFields]: a [UserModel]
    has the four attributes; a str or a list has none of them. *)
Definition getattr (obj : pyobj) (key : string) : value :=
  match obj with
  | PyUser u =>
      if bool_decide (key = "id") then of_option VInt (id u)
      else if bool_decide (key = "email") then of_option VStr (email u)
      else if bool_decide (key = "first_name") then of_option VStr (first_name u)
      else if bool_decide (key = "last_name") then of_option VStr (last_name u)
      else VNone
  | _ => VNone
  end.

(** Python's [int(s)] on a str of ASCII characters: white space around
    the numeral is dropped, a sign may come first, and the digits may be
    separated by single underscores. [None] stands for ValueError. *)
Definition is_space (c : ascii) : bool :=
  let n := Z.of_nat (nat_of_ascii c) in
  ((9 <=? n)%Z && (n <=? 13)%Z) || ((28 <=? n)%Z && (n <=? 32)%Z).

Definition digit_of (c : ascii) : option Z :=
  let n := Z.of_nat (nat_of_ascii c) in
  if (48 <=? n)%Z && (n <=? 57)%Z then Some (n - 48) else None.

Fixpoint lstrip (s : string) : string :=
  match s with
  | String c s' => if is_space c then lstrip s' else s
  | EmptyString => EmptyString
  end.

Definition strip (s : string) : string :=
  String.rev (lstrip (String.rev (lstrip s))).

Fixpoint digits (acc : Z) (after_digit : bool) (s : string) : option Z :=
  match s with
  | EmptyString => if after_digit then Some acc else None
  | String c s' =>
      match digit_of c with
      | Some d => digits (10 * acc + d) true s'
      | None =>
          if Ascii.eqb c "_"%char && after_digit then digits acc false s' else None
      end
  end.

Definition int_of_str (s : string) : option Z :=
  match strip s with
  | String c s' =>
      if Ascii.eqb c "-"%char then Z.opp <$> digits 0 false s'
      else if Ascii.eqb c "+"%char then digits 0 false s'
      else digits 0 false (String c s')
  | EmptyString => None
  end.

Module fields.

Inductive t : Type := Integer | String.

(** [Integer(default=0)]; [String] keeps Raw's default, [None]. *)
Definition default (f : t) : json :=
  match f with
  | Integer => JInt 0
  | String => JNull
  end.

(** [Integer.format] is [int(value)], with ValueError turned into
    MarshallingException; [String.format] is [str(value)]. *)
Definition format (f : t) (v : value) : result json :=
  match f, v with
  | Integer, VInt z => Ok (JInt z)
  | Integer, VStr s =>
      match int_of_str s with
      | Some z => Ok (JInt z)
      | None => Raise MarshallingException
      end
  | Integer, VNone => Ok (JInt 0)
  | String, VStr s => Ok (JStr s)
  | String, VInt z => Ok (JStr (pretty z))
  | String, VNone => Ok (JStr "None")
  end.

(** [Raw.output]: a missing or [None] attribute gives the default. *)
Definition output (f : t) (key : string) (obj : pyobj) : result json :=
  match getattr obj key with
  | VNone => Ok (default f)
  | v => format f v
  end.

End fields.

(** [userFields], lines 57-62 of api.py. *)
Definition userFields : list (string * fields.t) :=
  [ ("id", fields.Integer);
    ("email", fields.String);
    ("first_name", fields.String);
    ("last_name", fields.String) ].

(** Map a fallible function over a list, left to right; the first
    exception ends it. *)
Definition mapM {A B} (f : A -> result B) : list A -> result (list B) :=
  fix go (l : list A) : result (list B) :=
    match l with
    | [] => Ok []
    | a :: l' =>
        match f a with
        | Raise e => Raise e
        | Ok b =>
            match go l' with
            | Raise e => Raise e
            | Ok bs => Ok (b :: bs)
            end
        end
    end.

Definition fmap_result {A B} (f : A -> B) (r : result A) : result B :=
  match r with
  | Ok a => Ok (f a)
  | Raise e => Raise e
  end.

(** [marshal(data, fields)]: a list is marshalled element by element; any
    other object becomes a dict with one entry per field, in the order of
    [fields]. *)
Fixpoint marshal (data : pyobj) (fs : list (string * fields.t)) : result json :=
  match data with
  | PyList l => fmap_result JList (mapM (fun d => marshal d fs) l)
  | _ =>
      fmap_result JDict
        (mapM (fun kf => fmap_result (pair (fst kf)) (fields.output (snd kf) (fst kf) data)) fs)
  end.

(** What a handler returns: [return data] or [return data, code]. *)
Inductive retval (A : Type) : Type :=
  | Plain (data : A)
  | WithCode (data : A) (code : Z).
Arguments Plain {A} data.
Arguments WithCode {A} data code.

(** The decorator [@marshal_with(fields)]. *)
Definition marshal_with (fs : list (string * fields.t)) (f : M (retval pyobj))
    : M (retval json) :=
  resp <- f ;;
  match resp with
  | WithCode data code =>
      j <- lift (marshal data fs) ;;
      ret (WithCode j code)
  | Plain data =>
      j <- lift (marshal data fs) ;;
      ret (Plain j)
  end.

(** ** The resources *)

(** [class Users(Resource)], routed at /api/users/. *)
Module Users.

Definition get : M (retval json) :=
  marshal_with userFields (
    users <- query_all ;;
    ret (Plain (PyList (map PyUser users)))).

Definition post (request : Request) : M (retval json) :=
  marshal_with userFields (
    args <- reqparse.parse_args user_args request ;;
    a_email <- getitem args "email" ;;
    a_first_name <- getitem args "first_name" ;;
    a_last_name <- getitem args "last_name" ;;
    let user := mkUserModel None a_email a_first_name a_last_name in
    session_add user ;;
    session_commit ;;
    users <- query_all ;;
    ret (WithCode (PyList (map PyUser users)) 201)).

End Users.

(** [class User(Resource)], routed at /api/users/<string:email>. *)
Module User.

Definition get (email : string) : M (retval json) :=
  marshal_with userFields (
    user <- query_filter_by_email_first email ;;
    match user with
    | None => abort 404 [PyStr "User Not Found!"] []
    | Some user => ret (Plain (PyUser user))
    end).

Definition delete (email : string) : M (retval json) :=
  marshal_with userFields (
    user <- query_filter_by_email_first email ;;
    match user with
    | None => abort 404 [PyStr "User Not Found!"] []
    | Some user =>
        session_delete user ;;
        session_commit ;;
        ret (WithCode (PyStr ("user: " +:+ email +:+ " deleted!!")) 204)
    end).

Definition patch (email : string) (request : Request) : M (retval json) :=
  marshal_with userFields (
    args <- reqparse.parse_args user_args request ;;
    user <- query_filter_by_email_first email ;;
    match user with
    | None => abort 404 [PyStr "User Not Found!"] []
    | Some user =>
        a_first_name <- getitem args "first_name" ;;
        user <- setattr user col_first_name a_first_name ;;
        a_last_name <- getitem args "last_name" ;;
        user <- setattr user col_last_name a_last_name ;;
        session_commit ;;
        ret (Plain (PyUser user))
    end).

End User.

(** ** Serving a request *)

(** What the client gets: a JSON body with a status; a status and no body;
    the URL map's own answer when no resource is run (a redirect or an
    error page, of which the model keeps the status); or, for an exception
    that nothing handles, an internal server error. *)
Inductive response : Type :=
  | Response (data : json) (code : Z)
  | NoContent (code : Z)
  | RouterAnswer (code : Z)
  | InternalServerError (e : exn).

Definition status_code (r : response) : Z :=
  match r with
  | Response _ code => code
  | NoContent code => code
  | RouterAnswer code => code
  | InternalServerError _ => 500
  end.

(** A response with status 1xx, 204 or 304 is sent without its body. *)
Definition sent_without_body (code : Z) : bool :=
  ((100 <=? code)%Z && (code <? 200)%Z) || (code =? 204)%Z || (code =? 304)%Z.

Definition make_response (data : json) (code : Z) : response :=
  if sent_without_body code then NoContent code else Response data code.

(** Flask-RESTful runs the handler in a session of its own on the committed
    table. A plain return value gets status 200; an HTTPException becomes a
    response with its code and data; any other exception is not handled.
    The session is discarded when the request ends: what was flushed and
    not committed is rolled back, and only the committed table remains. *)
Definition dispatch_request (h : M (retval json)) (t : list UserModel)
    : response * list UserModel :=
  match h (begin t) with
  | (Ok (Plain data), s) => (make_response data 200, table s)
  | (Ok (WithCode data code), s) => (make_response data code, table s)
  | (Raise (HTTPException code data), s) => (make_response (JDict data) code, table s)
  | (Raise e, s) => (InternalServerError e, table s)
  end.

(** *** The URL map (lines 127-128 of api.py)

    [api.add_resource(Users, '/api/users/')] and
    [api.add_resource(User, '/api/users/<string:email>')]. A path under
    /api/users/ is given by what follows that prefix, the segment, after
    percent-decoding. *)

Inductive method : Type := GET | POST | DELETE | PATCH.

Inductive endpoint : Type :=
  | ep_users
  | ep_user (email : string).

Fixpoint has_slash (s : string) : bool :=
  match s with
  | String c s' => Ascii.eqb c "/"%char || has_slash s'
  | EmptyString => false
  end.

(** The converter [string] of a rule: one character at least, no slash. *)
Definition string_converter (segment : string) : bool :=
  negb (bool_decide (segment = "")) && negb (has_slash segment).

(** The rule that binds the path /api/users/segment, if one does. *)
Definition url_rule (segment : string) : option endpoint :=
  if bool_decide (segment = "") then Some ep_users
  else if string_converter segment then Some (ep_user segment)
  else None.

(** The methods of each resource class, with their arguments bound. *)
Definition view_function (m : method) (ep : endpoint) (body : Request)
    : option (M (retval json)) :=
  match ep, m with
  | ep_users, GET => Some Users.get
  | ep_users, POST => Some (Users.post body)
  | ep_user e, GET => Some (User.get e)
  | ep_user e, DELETE => Some (User.delete e)
  | ep_user e, PATCH => Some (User.patch e body)
  | _, _ => None
  end.

(** Merging slashes: every two consecutive slashes of the path become one.
    [unpaired] tells whether the character before is a slash that has not
    been merged yet, as the one that ends /api/users/ is. *)
Fixpoint merge_slashes (unpaired : bool) (s : string) : string :=
  match s with
  | String c s' =>
      if Ascii.eqb c "/"%char
      then if unpaired then merge_slashes false s'
           else String c (merge_slashes true s')
      else String c (merge_slashes false s')
  | EmptyString => EmptyString
  end.

(** The application on a path /api/users/segment. A path that a rule
    binds runs the method of the resource, or is answered 405 when the
    resource has no such method. A path that no rule binds is matched
    again with its slashes merged; if a rule binds it then, the answer is
    a redirect (308) to the merged path, and otherwise 404. *)
Definition wsgi_app (m : method) (segment : string) (body : Request)
    (t : list UserModel) : response * list UserModel :=
  match url_rule segment with
  | Some ep =>
      match view_function m ep body with
      | Some h => dispatch_request h t
      | None => (RouterAnswer 405, t)
      end
  | None =>
      match url_rule (merge_slashes true segment) with
      | Some ep =>
          match view_function m ep body with
          | Some _ => (RouterAnswer 308, t)
          | None => (RouterAnswer 405, t)
          end
      | None => (RouterAnswer 404, t)
      end
  end.

(** The requests of the interface: a method on /api/users/ or on
    /api/users/ followed by an email. *)
Inductive http_request : Type :=
  | GET_users
  | POST_users (body : Request)
  | GET_user (email : string)
  | DELETE_user (email : string)
  | PATCH_user (email : string) (body : Request).

Definition serve (r : http_request) (t : list UserModel) : response * list UserModel :=
  match r with
  | GET_users => wsgi_app GET "" ∅ t
  | POST_users body => wsgi_app POST "" body t
  | GET_user e => wsgi_app GET e ∅ t
  | DELETE_user e => wsgi_app DELETE e ∅ t
  | PATCH_user e body => wsgi_app PATCH e body t
  end.

(** The tables the service can be in: the empty table, and whatever a
    request leaves behind. *)
Inductive reachable : list UserModel -> Prop :=
  | reachable_empty : reachable []
  | reachable_serve r t : reachable t -> reachable (snd (serve r t)).

(** The constraints the schema declares (lines 42-45 of api.py): [id] is
    the primary key, [email] is unique, and no column is null. *)
Definition complete (u : UserModel) : Prop :=
  is_Some (id u) ∧ is_Some (email u) ∧ is_Some (first_name u) ∧ is_Some (last_name u).

Record schema_ok (t : list UserModel) : Prop := mk_schema_ok {
  rows_complete : Forall complete t;
  id_primary_key : NoDup (map id t);
  email_unique : NoDup (map email t)
}.

#[global] Instance complete_dec (u : UserModel) : Decision (complete u).
Proof. unfold complete. apply _. Defined.

#[global] Instance schema_ok_dec (t : list UserModel) : Decision (schema_ok t).
Proof.
  refine (cast_if (decide (Forall complete t ∧ NoDup (map id t) ∧ NoDup (map email t))));
    [destruct a as (H1 & H2 & H3); now split | intros [H1 H2 H3]; tauto].
Defined.

(** ** The serialized shape *)

(** {id, email, first_name, last_name} for a user: what [userFields] keeps
    of it. An attribute that is [None] shows as the default of its field. *)
Definition serialize (u : UserModel) : json :=
  JDict
    [ ("id", match id u with Some i => JInt i | None => JInt 0 end);
      ("email", match email u with Some s => JStr s | None => JNull end);
      ("first_name", match first_name u with Some s => JStr s | None => JNull end);
      ("last_name", match last_name u with Some s => JStr s | None => JNull end) ].

(** The body of a validation error about argument [a]. *)
Definition validation_error (a : reqparse.Argument) : json :=
  JDict [("message", JDict [(reqparse.name a, JStr (reqparse.help a))])].

(** Whether the error message of a response has an entry for field [f]. *)
Definition message_names (r : response) (f : string) : bool :=
  match r with
  | Response (JDict [(_, JDict m)]) _ => existsb (fun kv => bool_decide (fst kv = f)) m
  | _ => false
  end.

(** The first required argument of a parser that a request lacks. *)
Definition first_missing (parser : list reqparse.Argument) (request : Request)
    : option reqparse.Argument :=
  head (filter (fun a => reqparse.required a = true ∧ request !! reqparse.name a = None) parser).

(** The stored users with a given email, in storage order. *)
Definition with_email (e : string) (t : list UserModel) : list UserModel :=
  filter (fun r => has_email e r = true) t.

(** ** Sample data *)

(** A request body {email, first_name, last_name} of three strings. *)
Definition body_of (e f l : string) : Request :=
  <["email" := Some e]>
    (<["first_name" := Some f]>
       (<["last_name" := Some l]> ∅)).

(** A request body {first_name, last_name}, as the interface table gives
    it for PATCH. *)
Definition names_only (f l : string) : Request :=
  <["first_name" := Some f]> (<["last_name" := Some l]> ∅).

Definition alice : UserModel :=
  mkUserModel (Some 1) (Some "a@x.com") (Some "A") (Some "X").

Definition bob : UserModel :=
  mkUserModel (Some 2) (Some "b@x.com") (Some "B") (Some "Y").

(** A user whose email has a slash: a create accepts it, the item route
    does not bind it. *)
Definition carol : UserModel :=
  mkUserModel (Some 3) (Some "a/b@x.com") (Some "C") (Some "Z").

(** ** Shapes and orders used in the further properties *)




(** Ids above [lo], strictly increasing along the table. *)
Fixpoint ascending (lo : Z) (t : list UserModel) : Prop :=
  match t with
  | [] => True
  | u :: t' =>
      match id u with
      | Some i => lo < i ∧ ascending i t'
      | None => False
      end
  end.

(** What an update with names [f] and [l] makes of a row, for the primary
    key [pk] it addresses. *)
Definition with_names (pk : option Z) (f l : string) (r : UserModel) : UserModel :=
  if has_pk pk r then mkUserModel (id r) (email r) (Some f) (Some l) else r.

(** A stored email. *)
Definition stored (e : string) (t : list UserModel) : Prop :=
  ∃ u, u ∈ t ∧ email u = Some e.

(** Two requests that carry the same email, first_name and last_name,
    whatever else they carry. *)
Definition same_arguments (r1 r2 : Request) : Prop :=
  r1 !! "email" = r2 !! "email"
  ∧ r1 !! "first_name" = r2 !! "first_name"
  ∧ r1 !! "last_name" = r2 !! "last_name".

(** * Properties *)

(** ** Running the parts *)

Lemma bind_run {A B} (m : M A) (k : A -> M B) (s : Session) a s' :
  m s = (Ok a, s') -> bind m k s = k a s'.
Proof. intros H. unfold bind. now rewrite H. Qed.

Lemma query_first_run e t :
  query_filter_by_email_first e (begin t) = (Ok (head (with_email e t)), begin t).
Proof. reflexivity. Qed.

Lemma query_all_run t :
  query_all (begin t) = (Ok t, begin t).
Proof. reflexivity. Qed.

Lemma marshal_PyUser u : marshal (PyUser u) userFields = Ok (serialize u).
Proof. destruct u as [[i|] [e|] [f|] [l|]]; reflexivity. Qed.

Lemma marshal_PyStr s :
  marshal (PyStr s) userFields
  = Ok (JDict [("id", JInt 0); ("email", JNull); ("first_name", JNull); ("last_name", JNull)]).
Proof. reflexivity. Qed.

Lemma mapM_marshal_users t :
  mapM (fun d => marshal d userFields) (map PyUser t) = Ok (map serialize t).
Proof.
  induction t as [|u t IH]; [reflexivity|].
  cbn [map mapM]. rewrite marshal_PyUser.
  cbn [mapM] in IH. rewrite IH. reflexivity.
Qed.

Lemma marshal_users t :
  marshal (PyList (map PyUser t)) userFields = Ok (JList (map serialize t)).
Proof.
  cbn [marshal]. rewrite mapM_marshal_users. reflexivity.
Qed.

(** *** The parser *)

Lemma parse_args_present (request : Request) em fn ln s :
  request !! "email" = Some em ->
  request !! "first_name" = Some fn ->
  request !! "last_name" = Some ln ->
  reqparse.parse_args user_args request s
  = (Ok (<["last_name" := ln]> (<["first_name" := fn]> (<["email" := em]> ∅))), s).
Proof.
  intros H1 H2 H3.
  unfold reqparse.parse_args, user_args, reqparse.parse_args_into, bind, reqparse.parse.
  cbn [reqparse.name reqparse.required reqparse.help].
  rewrite H1. cbn [ret fst]. rewrite H2. cbn [ret fst]. rewrite H3. reflexivity.
Qed.

Lemma parse_args_missing (request : Request) a s :
  first_missing user_args request = Some a ->
  reqparse.parse_args user_args request s
  = (Raise (HTTPException 400 [("message", JDict [(reqparse.name a, JStr (reqparse.help a))])]), s).
Proof.
  unfold first_missing, user_args.
  unfold reqparse.parse_args, reqparse.parse_args_into, bind, reqparse.parse.
  cbn [reqparse.name reqparse.required reqparse.help].
  rewrite !filter_cons, filter_nil.
  cbn [reqparse.name reqparse.required reqparse.help].
  destruct (request !! "email") as [em|] eqn:H1;
    destruct (request !! "first_name") as [fn|] eqn:H2;
    destruct (request !! "last_name") as [ln|] eqn:H3;
    repeat case_decide; try (exfalso; intuition congruence);
    cbn; intros [= <-]; reflexivity.
Qed.

Lemma first_missing_spec (request : Request) :
  request !! "email" = None ∨ request !! "first_name" = None ∨ request !! "last_name" = None ->
  ∃ a, first_missing user_args request = Some a ∧ a ∈ user_args
       ∧ request !! reqparse.name a = None.
Proof.
  intros H. unfold first_missing, user_args.
  rewrite !filter_cons, filter_nil.
  cbn [reqparse.name reqparse.required reqparse.help].
  destruct (request !! "email") as [em|] eqn:H1;
    destruct (request !! "first_name") as [fn|] eqn:H2;
    destruct (request !! "last_name") as [ln|] eqn:H3;
    try (exfalso; destruct H as [H|[H|H]]; discriminate H); clear H;
    repeat case_decide; try (exfalso; intuition congruence);
    cbn; eexists; (split; [reflexivity|]); (split; [repeat constructor|]); done.
Qed.

Lemma getitem_email (em fn ln : option string) s :
  getitem (<["last_name" := ln]> (<["first_name" := fn]> (<["email" := em]> ∅))) "email" s
  = (Ok em, s).
Proof. unfold getitem. now simplify_map_eq. Qed.

Lemma getitem_first_name (em fn ln : option string) s :
  getitem (<["last_name" := ln]> (<["first_name" := fn]> (<["email" := em]> ∅))) "first_name" s
  = (Ok fn, s).
Proof. unfold getitem. now simplify_map_eq. Qed.

Lemma getitem_last_name (em fn ln : option string) s :
  getitem (<["last_name" := ln]> (<["first_name" := fn]> (<["email" := em]> ∅))) "last_name" s
  = (Ok ln, s).
Proof. unfold getitem. now simplify_map_eq. Qed.

(** *** The handlers, on the session a request starts with *)

Lemma insert_row_raise u t e :
  insert_row u t = Raise e -> ∃ msg, e = IntegrityError msg.
Proof.
  unfold insert_row, not_null.
  destruct (email u), (first_name u), (last_name u);
    try (intros [= <-]; eauto).
  destruct (existsb _ t); [intros [= <-]; eauto|].
  destruct (id u); [|discriminate].
  destruct (existsb _ t); [intros [= <-]; eauto|discriminate].
Qed.

Lemma Users_get_body t :
  Users.get (begin t) = (Ok (Plain (JList (map serialize t))), begin t).
Proof.
  unfold Users.get, marshal_with.
  rewrite (bind_run _ _ _ (Plain (PyList (map PyUser t))) (begin t)) by reflexivity.
  unfold bind, lift. rewrite marshal_users. reflexivity.
Qed.

Lemma Users_post_missing_body (request : Request) a t :
  first_missing user_args request = Some a ->
  Users.post request (begin t)
  = (Raise (HTTPException 400 [("message", JDict [(reqparse.name a, JStr (reqparse.help a))])]),
     begin t).
Proof.
  intros H. unfold Users.post, marshal_with.
  unfold bind at 1. unfold bind at 1.
  rewrite (parse_args_missing _ _ _ H). reflexivity.
Qed.

Lemma Users_post_body (request : Request) em fn ln t :
  request !! "email" = Some em ->
  request !! "first_name" = Some fn ->
  request !! "last_name" = Some ln ->
  Users.post request (begin t)
  = match insert_row (mkUserModel None em fn ln) t with
    | Ok t' => (Ok (WithCode (JList (map serialize t')) 201), begin t')
    | Raise e => (Raise e, begin t)
    end.
Proof.
  intros H1 H2 H3. unfold Users.post, marshal_with.
  unfold bind at 1. unfold bind at 1.
  rewrite (parse_args_present _ _ _ _ _ H1 H2 H3).
  unfold bind at 1. rewrite getitem_email.
  unfold bind at 1. rewrite getitem_first_name.
  unfold bind at 1. rewrite getitem_last_name.
  unfold bind at 1, session_add. cbn [table transaction pending begin app].
  unfold bind at 1, session_commit, session_flush.
  unfold bind at 1. cbn [table transaction pending flush flush_one].
  destruct (insert_row _ t) as [t'|e]; [|reflexivity].
  cbn [table transaction pending]. fold (begin t').
  unfold bind at 1. rewrite query_all_run.
  unfold ret, bind, lift. rewrite marshal_users. reflexivity.
Qed.

Lemma User_get_body e t :
  User.get e (begin t)
  = match head (with_email e t) with
    | Some u => (Ok (Plain (serialize u)), begin t)
    | None => (Raise TypeError, begin t)
    end.
Proof.
  unfold User.get, marshal_with.
  unfold bind at 1. unfold bind at 1. rewrite query_first_run.
  destruct (head (with_email e t)) as [u|]; [|reflexivity].
  unfold ret, bind, lift. rewrite marshal_PyUser. reflexivity.
Qed.

Lemma User_delete_body e t :
  User.delete e (begin t)
  = match head (with_email e t) with
    | Some u =>
        (Ok (WithCode (JDict [("id", JInt 0); ("email", JNull);
                              ("first_name", JNull); ("last_name", JNull)]) 204),
         begin (delete_row (id u) t))
    | None => (Raise TypeError, begin t)
    end.
Proof.
  unfold User.delete, marshal_with.
  unfold bind at 1. unfold bind at 1. rewrite query_first_run.
  destruct (head (with_email e t)) as [u|]; reflexivity.
Qed.

Lemma User_patch_missing_body e (request : Request) a t :
  first_missing user_args request = Some a ->
  User.patch e request (begin t)
  = (Raise (HTTPException 400 [("message", JDict [(reqparse.name a, JStr (reqparse.help a))])]),
     begin t).
Proof.
  intros H. unfold User.patch, marshal_with.
  unfold bind at 1. unfold bind at 1.
  rewrite (parse_args_missing _ _ _ H). reflexivity.
Qed.

Lemma User_patch_body e (request : Request) em fn ln t :
  request !! "email" = Some em ->
  request !! "first_name" = Some fn ->
  request !! "last_name" = Some ln ->
  User.patch e request (begin t)
  = match head (with_email e t) with
    | None => (Raise TypeError, begin t)
    | Some u =>
        match update_row (id u) col_first_name fn t with
        | Raise x => (Raise x, begin t)
        | Ok t1 =>
            match update_row (id u) col_last_name ln t1 with
            | Raise x => (Raise x, begin t)
            | Ok t2 =>
                (Ok (Plain (serialize (set_column col_last_name ln
                                         (set_column col_first_name fn u)))),
                 begin t2)
            end
        end
    end.
Proof.
  intros H1 H2 H3. unfold User.patch, marshal_with.
  unfold bind at 1. unfold bind at 1.
  rewrite (parse_args_present _ _ _ _ _ H1 H2 H3).
  unfold bind at 1. rewrite query_first_run.
  destruct (head (with_email e t)) as [u|]; [|reflexivity].
  unfold bind at 1. rewrite getitem_first_name.
  unfold bind at 1, setattr. cbn [table transaction pending begin app].
  unfold bind at 1. rewrite getitem_last_name.
  unfold bind at 1. cbn [table transaction pending app].
  unfold bind at 1, session_commit, session_flush.
  unfold bind at 1. cbn [table transaction pending flush flush_one].
  destruct fn as [f|]; [|reflexivity]. cbn [update_row].
  destruct ln as [l|]; [|reflexivity]. cbn [update_row].
  unfold ret, lift. rewrite marshal_PyUser. reflexivity.
Qed.

(** *** The URL map *)

Lemma string_converter_nonempty e : string_converter e = true -> e ≠ "".
Proof. intros H ->. discriminate. Qed.

Lemma url_rule_bound e : string_converter e = true -> url_rule e = Some (ep_user e).
Proof.
  intros H. unfold url_rule. rewrite H.
  rewrite bool_decide_eq_false_2; [reflexivity|now apply string_converter_nonempty].
Qed.

Lemma url_rule_unbound e : string_converter e = false -> e ≠ "" -> url_rule e = None.
Proof.
  intros H Hne. unfold url_rule. rewrite H. now rewrite bool_decide_eq_false_2.
Qed.

(** An email the item route does not bind runs no resource, unless it is
    empty: then the path is that of the collection. *)
Lemma serve_unbound e :
  string_converter e = false -> e ≠ "" ->
  ∃ cg cd cp,
    (∀ t, serve (GET_user e) t = (RouterAnswer cg, t))
    ∧ (∀ t, serve (DELETE_user e) t = (RouterAnswer cd, t))
    ∧ (∀ body t, serve (PATCH_user e body) t = (RouterAnswer cp, t))
    ∧ cg ∈ [308; 404] ∧ cd ∈ [308; 404; 405] ∧ cp ∈ [308; 404; 405].
Proof.
  intros H Hne. cbn [serve]. unfold wsgi_app. rewrite (url_rule_unbound e H Hne).
  destruct (url_rule (merge_slashes true e)) as [[|e']|]; cbn [view_function];
    do 3 eexists; (split; [reflexivity|]); (split; [reflexivity|]);
    (split; [reflexivity|]); rewrite !elem_of_cons; intuition auto.
Qed.

Lemma serve_empty_email (body : Request) t :
  serve (GET_user "") t = serve GET_users t
  ∧ serve (DELETE_user "") t = (RouterAnswer 405, t)
  ∧ serve (PATCH_user "" body) t = (RouterAnswer 405, t).
Proof. repeat split. Qed.

Lemma email_cases e :
  string_converter e = true ∨ e = "" ∨ (string_converter e = false ∧ e ≠ "").
Proof.
  destruct (string_converter e) eqn:H; [now left|right].
  destruct (decide (e = "")); [now left|now right].
Qed.

(** *** The requests, one by one *)

Lemma Users_get_run t :
  serve GET_users t = (Response (JList (map serialize t)) 200, t).
Proof.
  cbn [serve]. unfold wsgi_app. cbn [url_rule bool_decide decide_rel view_function].
  change (url_rule "") with (Some ep_users). cbn [view_function].
  unfold dispatch_request. now rewrite Users_get_body.
Qed.

Lemma Users_post_missing (request : Request) a t :
  first_missing user_args request = Some a ->
  serve (POST_users request) t = (Response (validation_error a) 400, t).
Proof.
  intros H. cbn [serve]. unfold wsgi_app.
  change (url_rule "") with (Some ep_users). cbn [view_function].
  unfold dispatch_request. now rewrite (Users_post_missing_body _ _ t H).
Qed.

Lemma Users_post_ok (request : Request) em fn ln t t' :
  request !! "email" = Some em ->
  request !! "first_name" = Some fn ->
  request !! "last_name" = Some ln ->
  insert_row (mkUserModel None em fn ln) t = Ok t' ->
  serve (POST_users request) t = (Response (JList (map serialize t')) 201, t').
Proof.
  intros H1 H2 H3 Hi. cbn [serve]. unfold wsgi_app.
  change (url_rule "") with (Some ep_users). cbn [view_function].
  unfold dispatch_request.
  rewrite (Users_post_body _ _ _ _ _ H1 H2 H3), Hi. reflexivity.
Qed.

Lemma Users_post_rejected (request : Request) em fn ln t e :
  request !! "email" = Some em ->
  request !! "first_name" = Some fn ->
  request !! "last_name" = Some ln ->
  insert_row (mkUserModel None em fn ln) t = Raise e ->
  serve (POST_users request) t = (InternalServerError e, t).
Proof.
  intros H1 H2 H3 Hi. cbn [serve]. unfold wsgi_app.
  change (url_rule "") with (Some ep_users). cbn [view_function].
  unfold dispatch_request.
  rewrite (Users_post_body _ _ _ _ _ H1 H2 H3), Hi.
  destruct (insert_row_raise _ _ _ Hi) as [msg ->]. reflexivity.
Qed.

Lemma User_get_run e t :
  string_converter e = true ->
  serve (GET_user e) t
  = match head (with_email e t) with
    | Some u => (Response (serialize u) 200, t)
    | None => (InternalServerError TypeError, t)
    end.
Proof.
  intros H. cbn [serve]. unfold wsgi_app. rewrite (url_rule_bound e H).
  cbn [view_function]. unfold dispatch_request. rewrite User_get_body.
  now destruct (head (with_email e t)).
Qed.

Lemma User_delete_run e t :
  string_converter e = true ->
  serve (DELETE_user e) t
  = match head (with_email e t) with
    | Some u => (NoContent 204, delete_row (id u) t)
    | None => (InternalServerError TypeError, t)
    end.
Proof.
  intros H. cbn [serve]. unfold wsgi_app. rewrite (url_rule_bound e H).
  cbn [view_function]. unfold dispatch_request. rewrite User_delete_body.
  now destruct (head (with_email e t)).
Qed.

Lemma User_patch_missing e (request : Request) a t :
  string_converter e = true ->
  first_missing user_args request = Some a ->
  serve (PATCH_user e request) t = (Response (validation_error a) 400, t).
Proof.
  intros H Ha. cbn [serve]. unfold wsgi_app. rewrite (url_rule_bound e H).
  cbn [view_function]. unfold dispatch_request.
  now rewrite (User_patch_missing_body e _ _ t Ha).
Qed.

Lemma User_patch_run e (request : Request) em fn ln t :
  string_converter e = true ->
  request !! "email" = Some em ->
  request !! "first_name" = Some fn ->
  request !! "last_name" = Some ln ->
  serve (PATCH_user e request) t
  = match head (with_email e t) with
    | None => (InternalServerError TypeError, t)
    | Some u =>
        match update_row (id u) col_first_name fn t with
        | Raise x => (InternalServerError x, t)
        | Ok t1 =>
            match update_row (id u) col_last_name ln t1 with
            | Raise x => (InternalServerError x, t)
            | Ok t2 =>
                (Response (serialize (set_column col_last_name ln
                                        (set_column col_first_name fn u))) 200, t2)
            end
        end
    end.
Proof.
  intros H H1 H2 H3. cbn [serve]. unfold wsgi_app. rewrite (url_rule_bound e H).
  cbn [view_function]. unfold dispatch_request.
  rewrite (User_patch_body e _ _ _ _ t H1 H2 H3).
  destruct (head (with_email e t)) as [u|]; [|reflexivity].
  destruct fn as [f|]; [|reflexivity]. cbn [update_row].
  destruct ln as [l|]; reflexivity.
Qed.

(** An email that the item route does not bind changes nothing. *)
Lemma unbound_changes_nothing e (body : Request) t :
  string_converter e = false ->
  snd (serve (GET_user e) t) = t
  ∧ snd (serve (DELETE_user e) t) = t
  ∧ snd (serve (PATCH_user e body) t) = t.
Proof.
  intros H. destruct (decide (e = "")) as [->|Hne].
  - destruct (serve_empty_email body t) as (-> & -> & ->).
    now rewrite Users_get_run.
  - destruct (serve_unbound e H Hne) as (cg & cd & cp & -> & -> & -> & _).
    now repeat split.
Qed.

(** ** The table *)

Section Table.

Implicit Types (t : list UserModel) (u r : UserModel) (e : string).

Lemma has_email_true e r : has_email e r = true <-> email r = Some e.
Proof. unfold has_email. apply bool_decide_eq_true. Qed.

Lemma has_pk_true pk r : has_pk pk r = true <-> id r = pk.
Proof. unfold has_pk. apply bool_decide_eq_true. Qed.

Lemma has_pk_false pk r : has_pk pk r = false <-> id r ≠ pk.
Proof. unfold has_pk. apply bool_decide_eq_false. Qed.

(** The lookup by email finds the first row with that email. *)
Lemma first_with_email e t u :
  head (with_email e t) = Some u ->
  ∃ l1 l2, t = l1 ++ u :: l2 ∧ email u = Some e ∧ ∀ r, r ∈ l1 -> email r ≠ Some e.
Proof.
  unfold with_email. induction t as [|x t IH]; [discriminate|].
  rewrite filter_cons. case_decide as Hx.
  - intros [= ->]. exists [], t. split; [reflexivity|].
    split; [now apply has_email_true|]. intros r Hr. inversion Hr.
  - intros H. destruct (IH H) as (l1 & l2 & -> & He & Hl1).
    exists (x :: l1), l2. split; [reflexivity|]. split; [exact He|].
    intros r [->|Hr]%elem_of_cons; [|now apply Hl1].
    intros Hc. apply Hx. now apply has_email_true.
Qed.

Lemma none_with_email e t :
  head (with_email e t) = None <-> ∀ r, r ∈ t -> email r ≠ Some e.
Proof.
  unfold with_email. induction t as [|x t IH].
  - split; [intros _ r Hr; inversion Hr|reflexivity].
  - rewrite filter_cons. case_decide as Hx.
    + split; [discriminate|]. intros H. exfalso.
      apply (H x); [left|]. now apply has_email_true.
    + rewrite IH. split.
      * intros H r [->|Hr]%elem_of_cons; [|now apply H].
        intros Hc. apply Hx. now apply has_email_true.
      * intros H r Hr. apply H. now right.
Qed.

Lemma email_taken_false v t :
  existsb (fun r => bool_decide (email r = v)) t = false
  <-> ∀ r, r ∈ t -> email r ≠ v.
Proof.
  induction t as [|x t IH]; cbn [existsb].
  - split; [intros _ r Hr; inversion Hr|reflexivity].
  - rewrite orb_false_iff, IH, bool_decide_eq_false. split.
    + intros [Hx Ht] r [->|Hr]%elem_of_cons; auto.
    + intros H. split; [apply H; left|intros r Hr; apply H; now right].
Qed.

(** Every id in use is below the next one. *)
Lemma max_id_bound t r i :
  r ∈ t -> id r = Some i -> ∃ m, max_id t = Some m ∧ i <= m.
Proof.
  induction t as [|x t IH]; [intros Hr; inversion Hr|].
  intros [->|Hr]%elem_of_cons Hi; cbn [max_id].
  - rewrite Hi. destruct (max_id t) as [m|]; eexists; (split; [reflexivity|lia]).
  - destruct (IH Hr Hi) as (m & -> & Hm).
    destruct (id x); eexists; (split; [reflexivity|lia]).
Qed.

Lemma next_id_fresh t r : r ∈ t -> id r ≠ Some (next_id t).
Proof.
  intros Hr Hi. destruct (max_id_bound _ _ _ Hr Hi) as (m & Hm & Hle).
  unfold next_id in Hle. rewrite Hm in Hle. lia.
Qed.

(** INSERT of a new instance with three values. *)
Lemma insert_row_fresh e f l t :
  (∀ r, r ∈ t -> email r ≠ Some e) ->
  insert_row (mkUserModel None (Some e) (Some f) (Some l)) t
  = Ok (t ++ [mkUserModel (Some (next_id t)) (Some e) (Some f) (Some l)]).
Proof.
  intros H. unfold insert_row. cbn [not_null email first_name last_name id].
  apply email_taken_false in H. now rewrite H.
Qed.

Lemma insert_row_duplicate em fn ln t r :
  r ∈ t -> email r = em ->
  ∃ msg, insert_row (mkUserModel None em fn ln) t = Raise (IntegrityError msg).
Proof.
  intros Hr He. unfold insert_row. cbn [not_null email first_name last_name id].
  destruct em as [e|]; [|eauto]. destruct fn as [f|]; [|eauto].
  destruct ln as [l|]; [|eauto].
  destruct (existsb _ t) eqn:Hex; [eauto|].
  exfalso. now apply (proj1 (email_taken_false _ _) Hex r).
Qed.

Lemma insert_row_ok em fn ln t t' :
  insert_row (mkUserModel None em fn ln) t = Ok t' ->
  ∃ e f l, em = Some e ∧ fn = Some f ∧ ln = Some l
           ∧ (∀ r, r ∈ t -> email r ≠ Some e)
           ∧ t' = t ++ [mkUserModel (Some (next_id t)) (Some e) (Some f) (Some l)].
Proof.
  unfold insert_row. cbn [not_null email first_name last_name id].
  destruct em as [e|]; [|discriminate]. destruct fn as [f|]; [|discriminate].
  destruct ln as [l|]; [|discriminate].
  destruct (existsb _ t) eqn:Hex; [discriminate|]. intros [= <-].
  exists e, f, l. repeat (split; [reflexivity|]).
  split; [now apply email_taken_false|reflexivity].
Qed.

(** UPDATE and DELETE address one row when ids are a key. *)
Lemma update_row_at pk c s l1 u l2 :
  id u = pk -> NoDup (map id (l1 ++ u :: l2)) ->
  update_row pk c (Some s) (l1 ++ u :: l2) = Ok (l1 ++ set_column c (Some s) u :: l2).
Proof.
  intros Hu Hnd. cbn [update_row]. f_equal.
  rewrite map_app in Hnd. cbn [map] in Hnd.
  apply NoDup_app in Hnd as (_ & Hl1 & [Hl2 _]%NoDup_cons).
  assert (Hkeep : ∀ l, id u ∉ map id l ->
            map (fun r => if has_pk pk r then set_column c (Some s) r else r) l = l).
  { induction l as [|x l IH]; [reflexivity|]. cbn [map].
    intros Hn. apply not_elem_of_cons in Hn as [Hx Hl].
    rewrite (proj2 (has_pk_false pk x)) by congruence. now rewrite IH. }
  rewrite map_app. cbn [map]. rewrite (proj2 (has_pk_true pk u) Hu).
  rewrite !Hkeep; [reflexivity|exact Hl2|].
  intros Hin. apply (Hl1 _ Hin). left.
Qed.

Lemma delete_row_at pk l1 u l2 :
  id u = pk -> NoDup (map id (l1 ++ u :: l2)) ->
  delete_row pk (l1 ++ u :: l2) = l1 ++ l2.
Proof.
  intros Hu Hnd. unfold delete_row.
  rewrite map_app in Hnd. cbn [map] in Hnd.
  apply NoDup_app in Hnd as (_ & Hl1 & [Hl2 _]%NoDup_cons).
  assert (Hkeep : ∀ l, id u ∉ map id l ->
            filter (fun r => has_pk pk r = false) l = l).
  { induction l as [|x l IH]; [reflexivity|]. cbn [map].
    intros Hn. apply not_elem_of_cons in Hn as [Hx Hl].
    rewrite filter_cons_True by (apply has_pk_false; congruence). now rewrite IH. }
  rewrite filter_app, filter_cons_False
    by (rewrite (proj2 (has_pk_true pk u) Hu); discriminate).
  rewrite !Hkeep; [reflexivity|exact Hl2|].
  intros Hin. apply (Hl1 _ Hin). left.
Qed.

End Table.

(** ** The schema's constraints hold in every reachable table *)

Section Schema.

Implicit Types (t : list UserModel) (u r : UserModel) (e : string).

Lemma schema_ok_nil : schema_ok [].
Proof. split; cbn [map]; constructor. Qed.

Lemma schema_ok_insert e f l t :
  schema_ok t -> (∀ r, r ∈ t -> email r ≠ Some e) ->
  schema_ok (t ++ [mkUserModel (Some (next_id t)) (Some e) (Some f) (Some l)]).
Proof.
  intros [Hc Hid Hem] Hfresh. split.
  - apply Forall_app. split; [exact Hc|].
    constructor; [|constructor]. repeat split; cbn; eauto.
  - rewrite map_app. cbn [map id]. apply NoDup_app. split; [exact Hid|].
    split; [|apply NoDup_singleton].
    intros x Hx [->|Hn]%elem_of_cons; [|inversion Hn].
    change (map id t) with (id <$> t) in Hx.
    apply list_elem_of_fmap in Hx as (r & Hr & Hin).
    now apply (next_id_fresh t r).
  - rewrite map_app. cbn [map email]. apply NoDup_app. split; [exact Hem|].
    split; [|apply NoDup_singleton].
    intros x Hx [->|Hn]%elem_of_cons; [|inversion Hn].
    change (map email t) with (email <$> t) in Hx.
    apply list_elem_of_fmap in Hx as (r & Hr & Hin).
    now apply (Hfresh r).
Qed.

Lemma schema_ok_update pk c s t t' :
  schema_ok t -> update_row pk c (Some s) t = Ok t' -> schema_ok t'.
Proof.
  intros [Hc Hid Hem]. cbn [update_row]. intros [= <-].
  set (g := fun r => if has_pk pk r then set_column c (Some s) r else r).
  assert (Hgid : ∀ r, id (g r) = id r).
  { intros r. unfold g. destruct (has_pk pk r), c; reflexivity. }
  assert (Hgem : ∀ r, email (g r) = email r).
  { intros r. unfold g. destruct (has_pk pk r), c; reflexivity. }
  split.
  - apply Forall_forall. intros x Hx.
    change (map g t) with (g <$> t) in Hx.
    apply list_elem_of_fmap in Hx as (r & -> & Hin).
    rewrite Forall_forall in Hc. specialize (Hc r Hin).
    destruct Hc as (H1 & H2 & H3 & H4). unfold g.
    destruct (has_pk pk r); [|repeat split; assumption].
    destruct c; repeat split; cbn; eauto.
  - rewrite map_map. erewrite map_ext; [exact Hid|]. exact Hgid.
  - rewrite map_map. erewrite map_ext; [exact Hem|]. exact Hgem.
Qed.

Lemma NoDup_map_filter {B} (f : UserModel -> B) (P : UserModel -> Prop)
    `{∀ x, Decision (P x)} t :
  NoDup (map f t) -> NoDup (map f (filter P t)).
Proof.
  induction t as [|x t IH]; [intros _; cbn; constructor|].
  cbn [map]. intros [Hx Ht]%NoDup_cons. rewrite filter_cons.
  case_decide; [|now apply IH].
  cbn [map]. apply NoDup_cons. split; [|now apply IH].
  intros Hin. apply Hx.
  change (map f (filter P t)) with (f <$> filter P t) in Hin.
  apply list_elem_of_fmap in Hin as (r & -> & Hr).
  apply list_elem_of_filter in Hr as [_ Hr].
  change (map f t) with (f <$> t). now apply list_elem_of_fmap_2.
Qed.

Lemma schema_ok_delete pk t : schema_ok t -> schema_ok (delete_row pk t).
Proof.
  intros [Hc Hid Hem]. unfold delete_row. split.
  - apply Forall_forall. intros x [_ Hx]%list_elem_of_filter.
    rewrite Forall_forall in Hc. now apply Hc.
  - now apply NoDup_map_filter.
  - now apply NoDup_map_filter.
Qed.

(** A request arrives with or without each argument. *)
Lemma arguments_cases (request : Request) :
  (∃ a, first_missing user_args request = Some a ∧ a ∈ user_args
        ∧ request !! reqparse.name a = None)
  ∨ (∃ em fn ln, request !! "email" = Some em ∧ request !! "first_name" = Some fn
                 ∧ request !! "last_name" = Some ln).
Proof.
  destruct (request !! "email") as [em|] eqn:H1;
    [|left; apply first_missing_spec; tauto].
  destruct (request !! "first_name") as [fn|] eqn:H2;
    [|left; apply first_missing_spec; tauto].
  destruct (request !! "last_name") as [ln|] eqn:H3;
    [|left; apply first_missing_spec; tauto].
  right. exists em, fn, ln. auto.
Qed.

Lemma serve_preserves_schema q t : schema_ok t -> schema_ok (snd (serve q t)).
Proof.
  intros Hok. destruct q as [|body|e|e|e body].
  - now rewrite Users_get_run.
  - destruct (arguments_cases body) as [(a & Ha & _)|(em & fn & ln & H1 & H2 & H3)].
    + now rewrite (Users_post_missing _ _ _ Ha).
    + destruct (insert_row (mkUserModel None em fn ln) t) as [t'|x] eqn:Hi.
      * rewrite (Users_post_ok _ _ _ _ _ _ H1 H2 H3 Hi). cbn [snd].
        apply insert_row_ok in Hi as (e & f & l & _ & _ & _ & Hfresh & ->).
        now apply schema_ok_insert.
      * now rewrite (Users_post_rejected _ _ _ _ _ _ H1 H2 H3 Hi).
  - destruct (string_converter e) eqn:Hb;
      [|now rewrite (proj1 (unbound_changes_nothing e ∅ t Hb))].
    rewrite (User_get_run e t Hb). now destruct (head (with_email e t)).
  - destruct (string_converter e) eqn:Hb;
      [|now rewrite (proj1 (proj2 (unbound_changes_nothing e ∅ t Hb)))].
    rewrite (User_delete_run e t Hb). destruct (head (with_email e t)); [|exact Hok].
    now apply schema_ok_delete.
  - destruct (string_converter e) eqn:Hb;
      [|now rewrite (proj2 (proj2 (unbound_changes_nothing e body t Hb)))].
    destruct (arguments_cases body) as [(a & Ha & _)|(em & fn & ln & H1 & H2 & H3)].
    + now rewrite (User_patch_missing _ _ _ _ Hb Ha).
    + rewrite (User_patch_run _ _ _ _ _ _ Hb H1 H2 H3).
      destruct (head (with_email e t)) as [u|]; [|exact Hok].
      destruct fn as [f|]; [|exact Hok].
      destruct (update_row (id u) col_first_name (Some f) t) as [t1|] eqn:Hu1;
        [|exact Hok].
      apply schema_ok_update in Hu1; [|exact Hok].
      destruct ln as [l|]; [|exact Hok].
      destruct (update_row (id u) col_last_name (Some l) t1) as [t2|] eqn:Hu2;
        [|exact Hok].
      now apply schema_ok_update in Hu2.
Qed.

Lemma reachable_schema_ok t : reachable t -> schema_ok t.
Proof.
  induction 1 as [|q t _ IH]; [apply schema_ok_nil|].
  now apply serve_preserves_schema.
Qed.

End Schema.

(** ** Lookup by email under the schema *)

Section Lookup.

Implicit Types (t : list UserModel) (u r : UserModel) (e : string).

Lemma with_email_none e t :
  (∀ r, r ∈ t -> email r ≠ Some e) -> with_email e t = [].
Proof. intros H. apply head_None. now apply none_with_email. Qed.

(** With unique emails, the lookup finds the stored user of the email. *)
Lemma lookup_unique e t u :
  NoDup (map email t) -> u ∈ t -> email u = Some e ->
  head (with_email e t) = Some u.
Proof.
  intros Hnd Hu He.
  destruct (head (with_email e t)) as [u0|] eqn:Hh.
  - f_equal.
    destruct (first_with_email _ _ _ Hh) as (l1 & l2 & -> & He0 & Hl1).
    apply elem_of_app in Hu as [Hu|Hu]; [now destruct (Hl1 u Hu)|].
    apply elem_of_cons in Hu as [->|Hu]; [reflexivity|]. exfalso.
    rewrite map_app in Hnd. cbn [map] in Hnd.
    apply NoDup_app in Hnd as (_ & _ & [Hn _]%NoDup_cons).
    apply Hn. rewrite He0, <- He.
    change (map email l2) with (email <$> l2). now apply list_elem_of_fmap_2.
  - exfalso. now apply (proj1 (none_with_email e t) Hh u).
Qed.

Lemma serialize_complete u :
  complete u ->
  ∃ i e f l, u = mkUserModel (Some i) (Some e) (Some f) (Some l)
             ∧ serialize u = JDict [("id", JInt i); ("email", JStr e);
                                    ("first_name", JStr f); ("last_name", JStr l)].
Proof.
  destruct u as [i e f l]. intros ([i' Hi] & [e' He] & [f' Hf] & [l' Hl]).
  cbn in Hi, He, Hf, Hl. subst. exists i', e', f', l'. split; reflexivity.
Qed.

Lemma serialize_email u e i f l :
  serialize u = JDict [("id", JInt i); ("email", JStr e);
                       ("first_name", JStr f); ("last_name", JStr l)] ->
  email u = Some e.
Proof.
  unfold serialize. intros [= _ He _ _].
  destruct (email u); [now injection He as ->|discriminate].
Qed.

End Lookup.

(** * The claims *)

(** ** Success needs a bound email *)

Lemma patch_success_is_bound e (body : Request) t :
  status_code (fst (serve (PATCH_user e body) t)) = 200 -> string_converter e = true.
Proof.
  destruct (email_cases e) as [Hb|[->|[Hb Hne]]]; [easy| |].
  - destruct (serve_empty_email body t) as (_ & _ & ->). discriminate.
  - destruct (serve_unbound e Hb Hne) as (cg & cd & cp & _ & _ & -> & _ & _ & Hc).
    cbn. intros ->. rewrite !elem_of_cons in Hc.
    destruct Hc as [?|[?|[?|Hc]]]; try discriminate. inversion Hc.
Qed.

Lemma delete_success_is_bound e t :
  status_code (fst (serve (DELETE_user e) t)) = 204 -> string_converter e = true.
Proof.
  destruct (email_cases e) as [Hb|[->|[Hb Hne]]]; [easy| |].
  - destruct (serve_empty_email ∅ t) as (_ & -> & _). discriminate.
  - destruct (serve_unbound e Hb Hne) as (cg & cd & cp & _ & -> & _ & _ & Hc & _).
    cbn. intros ->. rewrite !elem_of_cons in Hc.
    destruct Hc as [?|[?|[?|Hc]]]; try discriminate. inversion Hc.
Qed.

(** ** Item get *)

(** What item get does on any table, for an email the route binds: it
    serializes the first stored user with the email, and for an email that
    is not stored the call [abort(404, "User Not Found!")] raises
    TypeError. *)
Lemma User_get_stored e t u :
  string_converter e = true ->
  head (with_email e t) = Some u ->
  serve (GET_user e) t = (Response (serialize u) 200, t).
Proof. intros Hb H. now rewrite (User_get_run e t Hb), H. Qed.

Lemma User_get_unknown e t :
  string_converter e = true ->
  (∀ r, r ∈ t -> email r ≠ Some e) ->
  serve (GET_user e) t = (InternalServerError TypeError, t).
Proof.
  intros Hb H. apply none_with_email in H. now rewrite (User_get_run e t Hb), H.
Qed.

(** C1: item get on an email returns the first stored user with that
    email, serialized to {id, email, first_name, last_name}, and is meant
    to fail with 404 when no user has it. On the table holding alice,
    getting a@x.com answers 200 with her four fields; getting
    nobody@x.com, which is not stored, does not answer 404: the message is
    passed to [abort] positionally, the call raises TypeError and the
    request ends as an unhandled failure with status 500. *)
Theorem C1_get_unknown_email_is_not_404 :
  serve (GET_user "a@x.com") [alice]
  = (Response (JDict [("id", JInt 1); ("email", JStr "a@x.com");
                      ("first_name", JStr "A"); ("last_name", JStr "X")]) 200,
     [alice])
  ∧ serve (GET_user "nobody@x.com") [alice] = (InternalServerError TypeError, [alice])
  ∧ status_code (fst (serve (GET_user "nobody@x.com") [alice])) = 500.
Proof. repeat split; vm_compute; reflexivity. Qed.

(** ** Create with a missing field *)

(** C2 (as stated, refuted): with no field at all in the body, first_name
    is missing, yet the validation error does not name it. *)
Lemma C2_error_names_one_field_only :
  (∅ : Request) !! "first_name" = None
  ∧ status_code (fst (serve (POST_users ∅) [])) = 400
  ∧ message_names (fst (serve (POST_users ∅) [])) "email" = true
  ∧ message_names (fst (serve (POST_users ∅) [])) "first_name" = false.
Proof. repeat split; vm_compute; reflexivity. Qed.

(** C2 (amended): a create request that lacks any of email, first_name,
    last_name fails with status 400; the error names the first field that
    is missing, in the order email, first_name, last_name, with the help
    text of that field, and names no other; the table is unchanged. *)
Theorem C2_post_missing_field (request : Request) (t : list UserModel) :
  request !! "email" = None ∨ request !! "first_name" = None
    ∨ request !! "last_name" = None ->
  ∃ a, first_missing user_args request = Some a
       ∧ a ∈ user_args
       ∧ request !! reqparse.name a = None
       ∧ serve (POST_users request) t = (Response (validation_error a) 400, t)
       ∧ ∀ f, message_names (fst (serve (POST_users request) t)) f
              = bool_decide (reqparse.name a = f).
Proof.
  intros H. destruct (first_missing_spec request H) as (a & Ha & Hin & Hnone).
  exists a. repeat (split; [assumption|]).
  rewrite (Users_post_missing _ _ _ Ha). split; [reflexivity|].
  intros f. cbn. now rewrite orb_false_r.
Qed.

Lemma C2_post_missing_field_witness :
  ∃ a, first_missing user_args (names_only "A" "X") = Some a
       ∧ a ∈ user_args
       ∧ names_only "A" "X" !! reqparse.name a = None
       ∧ serve (POST_users (names_only "A" "X")) [alice]
         = (Response (validation_error a) 400, [alice])
       ∧ ∀ f, message_names (fst (serve (POST_users (names_only "A" "X")) [alice])) f
              = bool_decide (reqparse.name a = f).
Proof.
  apply (C2_post_missing_field (names_only "A" "X") [alice]).
  left. vm_compute. reflexivity.
Defined.

(** ** Update validates before it looks up *)

(** C10 (as stated, refuted): the email a/b@x.com is not stored and the
    body lacks email, yet the answer is 404 and not the validation error:
    the item route binds no email with a slash, the URL map answers, and
    the update handler is not run. *)
Lemma C10_unbound_email_is_404 :
  (∀ r, r ∈ [alice] -> email r ≠ Some "a/b@x.com")
  ∧ names_only "B" "Y" !! "email" = None
  ∧ serve (PATCH_user "a/b@x.com" (names_only "B" "Y")) [alice] = (RouterAnswer 404, [alice])
  ∧ status_code (fst (serve (PATCH_user "a/b@x.com" (names_only "B" "Y")) [alice])) = 404.
Proof.
  split; [|repeat split; vm_compute; reflexivity].
  intros r [->|Hr]%elem_of_cons; [discriminate|inversion Hr].
Qed.

(** C10 (amended): the update handler parses the body before it looks the
    email up: for an email that the item route binds (not empty, no
    slash) and that is not stored, and a body that lacks a required
    field, the answer is the validation error, status 400 and not 404, and
    the table is unchanged. *)
Theorem C10_patch_validates_before_lookup (e : string) (request : Request)
    (t : list UserModel) :
  string_converter e = true ->
  (∀ r, r ∈ t -> email r ≠ Some e) ->
  request !! "email" = None ∨ request !! "first_name" = None
    ∨ request !! "last_name" = None ->
  ∃ a, a ∈ user_args
       ∧ request !! reqparse.name a = None
       ∧ serve (PATCH_user e request) t = (Response (validation_error a) 400, t)
       ∧ status_code (fst (serve (PATCH_user e request) t)) = 400
       ∧ status_code (fst (serve (PATCH_user e request) t)) ≠ 404.
Proof.
  intros Hb _ H. destruct (first_missing_spec request H) as (a & Ha & Hin & Hnone).
  exists a. repeat (split; [assumption|]).
  rewrite (User_patch_missing _ _ _ _ Hb Ha). repeat split. cbn. lia.
Qed.

Lemma C10_patch_validates_before_lookup_witness :
  ∃ a, a ∈ user_args
       ∧ names_only "B" "Y" !! reqparse.name a = None
       ∧ serve (PATCH_user "nobody@x.com" (names_only "B" "Y")) [alice]
         = (Response (validation_error a) 400, [alice])
       ∧ status_code (fst (serve (PATCH_user "nobody@x.com" (names_only "B" "Y")) [alice])) = 400
       ∧ status_code (fst (serve (PATCH_user "nobody@x.com" (names_only "B" "Y")) [alice])) ≠ 404.
Proof.
  apply (C10_patch_validates_before_lookup "nobody@x.com" (names_only "B" "Y") [alice]).
  - vm_compute. reflexivity.
  - intros r [->|Hr]%elem_of_cons; [discriminate|inversion Hr].
  - left. vm_compute. reflexivity.
Defined.

(** ** Update *)

(** C3 (as stated, refuted): a@x.com is stored, the body supplies
    first_name and last_name and no email, and the update does not answer
    200: [user_args] requires email, the answer is the validation error
    with status 400, and the user keeps her names. Nor does every stored
    email get as far as the handler: a/b@x.com is stored (a create
    accepts it), and an update on it with a complete body is answered 404
    by the URL map, which binds no email with a slash. *)
Lemma C3_patch_without_email_is_400 :
  alice ∈ [alice]
  ∧ email alice = Some "a@x.com"
  ∧ names_only "B" "Y" !! "email" = None
  ∧ serve (PATCH_user "a@x.com" (names_only "B" "Y")) [alice]
    = (Response (JDict [("message", JDict [("email", JStr "Email can't be blank")])]) 400,
       [alice])
  ∧ snd (serve (POST_users (body_of "a/b@x.com" "C" "Z")) [alice; bob]) = [alice; bob; carol]
  ∧ serve (PATCH_user "a/b@x.com" (body_of "a/b@x.com" "C2" "Z2")) [alice; bob; carol]
    = (RouterAnswer 404, [alice; bob; carol]).
Proof. repeat split; try (vm_compute; reflexivity). left. Qed.

(** C3 (amended): for every stored email e that the item route binds (not
    empty, no slash), an update request whose body supplies email,
    first_name and last_name, the two names not null, answers 200 with the
    serialized user carrying the new names, and the stored user is
    replaced, where it stands, by one with the same id, the same email e
    and the new names. The email of the body is required (without it the
    answer is the validation error, status 400, whatever else the body
    holds, and the table is unchanged) but its value is not used. *)
Theorem C3_patch_requires_email_and_keeps_it (e : string) (t : list UserModel)
    (u : UserModel) :
  string_converter e = true ->
  schema_ok t -> u ∈ t -> email u = Some e ->
  (∀ (request : Request) em f l,
      request !! "email" = Some em ->
      request !! "first_name" = Some (Some f) ->
      request !! "last_name" = Some (Some l) ->
      ∃ i l1 l2,
        id u = Some i
        ∧ t = l1 ++ u :: l2
        ∧ serve (PATCH_user e request) t
          = (Response (JDict [("id", JInt i); ("email", JStr e);
                              ("first_name", JStr f); ("last_name", JStr l)]) 200,
             l1 ++ mkUserModel (Some i) (Some e) (Some f) (Some l) :: l2))
  ∧ (∀ (request : Request),
      request !! "email" = None ->
      serve (PATCH_user e request) t
      = (Response (JDict [("message", JDict [("email", JStr "Email can't be blank")])]) 400,
         t)).
Proof.
  intros Hb Hok Hu He. split.
  - intros request em f l H1 H2 H3.
    rewrite (User_patch_run _ _ _ _ _ _ Hb H1 H2 H3).
    pose proof (lookup_unique e t u (email_unique _ Hok) Hu He) as Hh. rewrite Hh.
    destruct (first_with_email _ _ _ Hh) as (l1 & l2 & Ht & _ & _).
    pose proof (rows_complete _ Hok) as Hc. rewrite Forall_forall in Hc.
    destruct (serialize_complete u (Hc u Hu)) as (i & e' & f' & l' & Hueq & _).
    pose proof (id_primary_key _ Hok) as Hid. rewrite Ht in Hid.
    exists i, l1, l2. split; [now rewrite Hueq|]. split; [exact Ht|].
    rewrite Ht at 1.
    rewrite (update_row_at (id u) col_first_name f l1 u l2 eq_refl Hid).
    rewrite (update_row_at (id u) col_last_name l l1
               (set_column col_first_name (Some f) u) l2 eq_refl)
      by (rewrite map_app in Hid |- *; exact Hid).
    rewrite Hueq in He |- *. cbn in He. injection He as ->. reflexivity.
  - intros request H1.
    assert (Ha : first_missing user_args request
                 = Some (reqparse.mkArgument "email" true "Email can't be blank")).
    { unfold first_missing, user_args. rewrite filter_cons_True; [reflexivity|].
      split; [reflexivity|exact H1]. }
    now rewrite (User_patch_missing _ _ _ _ Hb Ha).
Qed.

Lemma C3_patch_requires_email_and_keeps_it_witness :
  serve (PATCH_user "a@x.com" (body_of "z@x.com" "B" "Y")) [alice; bob]
  = (Response (JDict [("id", JInt 1); ("email", JStr "a@x.com");
                      ("first_name", JStr "B"); ("last_name", JStr "Y")]) 200,
     [mkUserModel (Some 1) (Some "a@x.com") (Some "B") (Some "Y"); bob])
  ∧ serve (PATCH_user "a@x.com" (names_only "B" "Y")) [alice; bob]
    = (Response (JDict [("message", JDict [("email", JStr "Email can't be blank")])]) 400,
       [alice; bob]).
Proof.
  assert (Hok : schema_ok [alice; bob])
    by (apply (bool_decide_unpack _); vm_compute; reflexivity).
  assert (Hin : alice ∈ [alice; bob]) by left.
  destruct (C3_patch_requires_email_and_keeps_it "a@x.com" [alice; bob] alice
              eq_refl Hok Hin eq_refl) as [A B].
  split.
  - destruct (A (body_of "z@x.com" "B" "Y") (Some "z@x.com") "B" "Y"
                eq_refl eq_refl eq_refl) as (i & l1 & l2 & Hi & Ht & Hs).
    vm_compute. reflexivity.
  - apply B. vm_compute. reflexivity.
Defined.

(** C4: on a table that satisfies the schema, an update on the email e of
    a stored user u that answers 200 replaces u, where it stands, by a
    user with the same id and the same email and the two names of the
    body; every other stored user is left as it was. *)
Theorem C4_patch_frame (e : string) (request : Request) (t t' : list UserModel)
    (u : UserModel) (r : response) :
  schema_ok t -> u ∈ t -> email u = Some e ->
  serve (PATCH_user e request) t = (r, t') ->
  status_code r = 200 ->
  ∃ l1 l2 f l,
    request !! "first_name" = Some (Some f)
    ∧ request !! "last_name" = Some (Some l)
    ∧ t = l1 ++ u :: l2
    ∧ t' = l1 ++ mkUserModel (id u) (email u) (Some f) (Some l) :: l2.
Proof.
  intros Hok Hu He Hs Hr.
  assert (Hb : string_converter e = true).
  { apply (patch_success_is_bound e request t). now rewrite Hs. }
  destruct (arguments_cases request) as [(a & Ha & _)|(em & fn & ln & H1 & H2 & H3)].
  { rewrite (User_patch_missing _ _ _ _ Hb Ha) in Hs. injection Hs as <- <-.
    cbn in Hr. lia. }
  rewrite (User_patch_run _ _ _ _ _ _ Hb H1 H2 H3) in Hs.
  pose proof (lookup_unique e t u (email_unique _ Hok) Hu He) as Hh.
  rewrite Hh in Hs.
  destruct (first_with_email _ _ _ Hh) as (l1 & l2 & -> & _ & _).
  pose proof (id_primary_key _ Hok) as Hid.
  destruct fn as [f|]; [|injection Hs as <- <-; cbn in Hr; lia].
  rewrite (update_row_at (id u) col_first_name f l1 u l2 eq_refl Hid) in Hs.
  destruct ln as [l|]; [|injection Hs as <- <-; cbn in Hr; lia].
  rewrite (update_row_at (id u) col_last_name l l1
             (set_column col_first_name (Some f) u) l2 eq_refl) in Hs.
  - injection Hs as <- <-. exists l1, l2, f, l. repeat (split; [assumption || reflexivity|]).
    reflexivity.
  - rewrite map_app in Hid |- *. exact Hid.
Qed.

Lemma C4_patch_frame_witness :
  ∃ l1 l2 f l,
    body_of "z@x.com" "B2" "Y2" !! "first_name" = Some (Some f)
    ∧ body_of "z@x.com" "B2" "Y2" !! "last_name" = Some (Some l)
    ∧ [alice; bob] = l1 ++ bob :: l2
    ∧ snd (serve (PATCH_user "b@x.com" (body_of "z@x.com" "B2" "Y2")) [alice; bob])
      = l1 ++ mkUserModel (id bob) (email bob) (Some f) (Some l) :: l2.
Proof.
  apply (C4_patch_frame "b@x.com" (body_of "z@x.com" "B2" "Y2") [alice; bob] _ bob
           (fst (serve (PATCH_user "b@x.com" (body_of "z@x.com" "B2" "Y2")) [alice; bob]))).
  - apply (bool_decide_unpack _). vm_compute. exact I.
  - right. left.
  - reflexivity.
  - vm_compute. reflexivity.
  - vm_compute. reflexivity.
Defined.

(** ** Delete *)

(** What delete does on any table that satisfies the schema, for a stored
    email that the item route binds: the user of the email is removed and
    nobody else, and the answer is status 204, sent without a body. *)
Lemma User_delete_stored e t u :
  string_converter e = true ->
  schema_ok t -> u ∈ t -> email u = Some e ->
  ∃ l1 l2, t = l1 ++ u :: l2
    ∧ serve (DELETE_user e) t = (NoContent 204, l1 ++ l2)
    ∧ ∀ r, r ∈ l1 ++ l2 -> email r ≠ Some e.
Proof.
  intros Hb Hok Hu He.
  pose proof (lookup_unique e t u (email_unique _ Hok) Hu He) as Hh.
  destruct (first_with_email _ _ _ Hh) as (l1 & l2 & -> & _ & _).
  exists l1, l2. split; [reflexivity|].
  rewrite (User_delete_run e _ Hb), Hh.
  rewrite (delete_row_at (id u) l1 u l2 eq_refl (id_primary_key _ Hok)).
  split; [reflexivity|].
  intros r Hr Hre. pose proof (email_unique _ Hok) as Hnd.
  rewrite map_app in Hnd. cbn [map] in Hnd.
  apply NoDup_app in Hnd as (_ & Hl1 & [Hl2 _]%NoDup_cons).
  assert (Hin : ∀ l, r ∈ l -> email u ∈ map email l).
  { intros l Hl. rewrite He, <- Hre. change (map email l) with (email <$> l).
    now apply list_elem_of_fmap_2. }
  apply elem_of_app in Hr as [Hr|Hr].
  - apply (Hl1 _ (Hin _ Hr)). left.
  - apply Hl2, Hin, Hr.
Qed.

Lemma User_delete_unknown e t :
  string_converter e = true ->
  (∀ r, r ∈ t -> email r ≠ Some e) ->
  serve (DELETE_user e) t = (InternalServerError TypeError, t).
Proof.
  intros Hb H. apply none_with_email in H. now rewrite (User_delete_run e t Hb), H.
Qed.

(** C5: delete on a stored email is meant to answer 204 with a
    confirmation text. Deleting a@x.com from the table holding alice and
    bob answers 204 and removes alice, but the text
    "user: a@x.com deleted!!" that the handler returns reaches nobody: the
    handler is decorated with [marshal_with(userFields)] like the others,
    the text has none of the four attributes, so what the decorated
    handler returns is the fixed shape filled with the defaults of the
    fields; and the response, having status 204, is sent with no body at
    all. *)
Theorem C5_delete_body_is_marshalled :
  fst (User.delete "a@x.com" (begin [alice; bob]))
  = Ok (WithCode (JDict [("id", JInt 0); ("email", JNull);
                         ("first_name", JNull); ("last_name", JNull)]) 204)
  ∧ serve (DELETE_user "a@x.com") [alice; bob] = (NoContent 204, [bob])
  ∧ fst (User.delete "a@x.com" (begin [alice; bob]))
    ≠ Ok (WithCode (JStr "user: a@x.com deleted!!") 204)
  ∧ fst (serve (DELETE_user "a@x.com") [alice; bob])
    ≠ Response (JStr "user: a@x.com deleted!!") 204.
Proof.
  split; [vm_compute; reflexivity|]. split; [vm_compute; reflexivity|].
  split; vm_compute; discriminate.
Qed.

(** C6: deleting the one user with email a@x.com removes her, and the
    list that follows does not show her; the second delete of a@x.com is
    meant to answer 404. It does not: the email is no longer stored, the
    call [abort(404, "User Not Found!")] raises TypeError, and the request
    ends as an unhandled failure with status 500. *)
Theorem C6_second_delete_is_not_404 :
  let t' := snd (serve (DELETE_user "a@x.com") [alice; bob]) in
  t' = [bob]
  ∧ serve GET_users t'
    = (Response (JList [JDict [("id", JInt 2); ("email", JStr "b@x.com");
                               ("first_name", JStr "B"); ("last_name", JStr "Y")]]) 200,
       t')
  ∧ serve (DELETE_user "a@x.com") t' = (InternalServerError TypeError, t')
  ∧ status_code (fst (serve (DELETE_user "a@x.com") t')) = 500.
Proof. repeat split; vm_compute; reflexivity. Qed.

(** ** Create *)

(** C7 (as stated, refuted): all three fields are present, the email is
    the one alice is stored with, and the create neither inserts a row nor
    answers 201. *)
Lemma C7_duplicate_email_is_not_created :
  body_of "a@x.com" "A2" "X2" !! "email" = Some (Some "a@x.com")
  ∧ body_of "a@x.com" "A2" "X2" !! "first_name" = Some (Some "A2")
  ∧ body_of "a@x.com" "A2" "X2" !! "last_name" = Some (Some "X2")
  ∧ serve (POST_users (body_of "a@x.com" "A2" "X2")) [alice]
    = (InternalServerError (IntegrityError "UNIQUE constraint failed: user_model.email"),
       [alice]).
Proof. repeat split; vm_compute; reflexivity. Qed.

(** C7 (amended): a create request with all three fields present and not
    null, whose email no stored user has, appends exactly one row, made of
    the three values and the next id, and answers 201 with the serialized
    list of all users, the new one last. *)
Theorem C7_post_creates (request : Request) (e f l : string) (t : list UserModel) :
  request !! "email" = Some (Some e) ->
  request !! "first_name" = Some (Some f) ->
  request !! "last_name" = Some (Some l) ->
  (∀ r, r ∈ t -> email r ≠ Some e) ->
  let u := mkUserModel (Some (next_id t)) (Some e) (Some f) (Some l) in
  serve (POST_users request) t = (Response (JList (map serialize (t ++ [u]))) 201, t ++ [u])
  ∧ length (t ++ [u]) = S (length t).
Proof.
  intros H1 H2 H3 Hfresh u. split.
  - apply (Users_post_ok _ _ _ _ _ _ H1 H2 H3). now apply insert_row_fresh.
  - rewrite length_app. cbn. lia.
Qed.

Lemma C7_post_creates_witness :
  let u := mkUserModel (Some (next_id [alice])) (Some "b@x.com") (Some "B") (Some "Y") in
  serve (POST_users (body_of "b@x.com" "B" "Y")) [alice]
  = (Response (JList (map serialize ([alice] ++ [u]))) 201, [alice] ++ [u])
  ∧ length ([alice] ++ [u]) = S (length [alice]).
Proof.
  apply (C7_post_creates (body_of "b@x.com" "B" "Y") "b@x.com" "B" "Y" [alice]).
  - vm_compute. reflexivity.
  - vm_compute. reflexivity.
  - vm_compute. reflexivity.
  - intros r [->|Hr]%elem_of_cons; [discriminate|inversion Hr].
Defined.

(** C8: in every reachable table no two stored users have the same email;
    a create whose three fields are present and whose email is that of a
    stored user is rejected by the table, the handler does not catch the
    IntegrityError, and the request ends as an unhandled failure with
    status 500, the table unchanged. *)
Theorem C8_email_unique_duplicate_unhandled (t : list UserModel) :
  reachable t ->
  NoDup (map email t)
  ∧ ∀ (request : Request) u,
      u ∈ t ->
      request !! "email" = Some (email u) ->
      is_Some (request !! "first_name") ->
      is_Some (request !! "last_name") ->
      ∃ msg, serve (POST_users request) t = (InternalServerError (IntegrityError msg), t)
             ∧ status_code (fst (serve (POST_users request) t)) = 500.
Proof.
  intros Hr. split; [apply email_unique, reachable_schema_ok, Hr|].
  intros request u Hu H1 [fn H2] [ln H3].
  destruct (insert_row_duplicate (email u) fn ln t u Hu eq_refl) as [msg Hi].
  exists msg. now rewrite (Users_post_rejected _ _ _ _ _ _ H1 H2 H3 Hi).
Qed.

Lemma C8_email_unique_duplicate_unhandled_witness :
  NoDup (map email [alice])
  ∧ ∃ msg, serve (POST_users (body_of "a@x.com" "A2" "X2")) [alice]
           = (InternalServerError (IntegrityError msg), [alice])
           ∧ status_code (fst (serve (POST_users (body_of "a@x.com" "A2" "X2")) [alice])) = 500.
Proof.
  assert (Hr : reachable [alice])
    by exact (reachable_serve (POST_users (body_of "a@x.com" "A" "X")) [] reachable_empty).
  destruct (C8_email_unique_duplicate_unhandled [alice] Hr) as [Hnd Hdup].
  split; [exact Hnd|].
  apply (Hdup (body_of "a@x.com" "A2" "X2") alice).
  - left.
  - vm_compute. reflexivity.
  - exists (Some "A2"). vm_compute. reflexivity.
  - exists (Some "X2"). vm_compute. reflexivity.
Defined.

(** C9 (as stated, refuted): on the table holding alice and bob, where no
    user has the email a/b@x.com, a create with that email succeeds with
    201 and stores it; the item get on it then does not succeed: the item
    route binds no email with a slash, and the URL map answers 404. *)
Lemma C9_created_email_the_route_does_not_bind :
  (∀ r, r ∈ [alice; bob] -> email r ≠ Some "a/b@x.com")
  ∧ status_code (fst (serve (POST_users (body_of "a/b@x.com" "C" "Z")) [alice; bob])) = 201
  ∧ snd (serve (POST_users (body_of "a/b@x.com" "C" "Z")) [alice; bob]) = [alice; bob; carol]
  ∧ serve (GET_user "a/b@x.com") [alice; bob; carol] = (RouterAnswer 404, [alice; bob; carol]).
Proof.
  split; [|repeat split; vm_compute; reflexivity].
  intros r Hr. rewrite !elem_of_cons in Hr.
  destruct Hr as [->|[->|Hr]]; [discriminate|discriminate|inversion Hr].
Qed.

(** C9 (amended): on a table where no user has email e, for an email e
    that the item route binds (not empty, no slash), creating (e, f, l)
    succeeds with 201 and commits the new row; the item get on e then
    answers 200 with exactly e, f, l and the id given at creation, which no
    earlier user has; and the list then is the earlier users followed by
    that user, none of the earlier ones being equal to it. *)
Theorem C9_create_then_get (request : Request) (e f l : string) (t : list UserModel) :
  string_converter e = true ->
  (∀ r, r ∈ t -> email r ≠ Some e) ->
  request !! "email" = Some (Some e) ->
  request !! "first_name" = Some (Some f) ->
  request !! "last_name" = Some (Some l) ->
  let created := JDict [("id", JInt (next_id t)); ("email", JStr e);
                        ("first_name", JStr f); ("last_name", JStr l)] in
  ∃ t', serve (POST_users request) t
        = (Response (JList (map serialize t ++ [created])) 201, t')
    ∧ t' = t ++ [mkUserModel (Some (next_id t)) (Some e) (Some f) (Some l)]
    ∧ serve (GET_user e) t' = (Response created 200, t')
    ∧ serve GET_users t' = (Response (JList (map serialize t ++ [created])) 200, t')
    ∧ (∀ j, j ∈ map serialize t -> j ≠ created)
    ∧ (∀ r, r ∈ t -> id r ≠ Some (next_id t)).
Proof.
  intros Hb Hfresh H1 H2 H3 created.
  set (u := mkUserModel (Some (next_id t)) (Some e) (Some f) (Some l)).
  exists (t ++ [u]).
  assert (Hmap : map serialize (t ++ [u]) = map serialize t ++ [created])
    by now rewrite map_app.
  split.
  { rewrite <- Hmap. apply (Users_post_ok _ _ _ _ _ _ H1 H2 H3).
    now apply insert_row_fresh. }
  split; [reflexivity|].
  split.
  { apply (User_get_stored e (t ++ [u]) u Hb). unfold with_email. rewrite filter_app.
    fold (with_email e t). rewrite (with_email_none e t Hfresh).
    rewrite filter_cons_True by (apply has_email_true; reflexivity). reflexivity. }
  split; [now rewrite Users_get_run, Hmap|].
  split; [|intros r Hr; now apply next_id_fresh].
  intros j Hj ->. change (map serialize t) with (serialize <$> t) in Hj.
  apply list_elem_of_fmap in Hj as (r & Hj & Hr).
  symmetry in Hj. apply serialize_email in Hj. now apply (Hfresh r).
Qed.

Lemma C9_create_then_get_witness :
  let created := JDict [("id", JInt (next_id [alice])); ("email", JStr "b@x.com");
                        ("first_name", JStr "B"); ("last_name", JStr "Y")] in
  ∃ t', serve (POST_users (body_of "b@x.com" "B" "Y")) [alice]
        = (Response (JList (map serialize [alice] ++ [created])) 201, t')
    ∧ t' = [alice] ++ [mkUserModel (Some (next_id [alice])) (Some "b@x.com")
                         (Some "B") (Some "Y")]
    ∧ serve (GET_user "b@x.com") t' = (Response created 200, t')
    ∧ serve GET_users t' = (Response (JList (map serialize [alice] ++ [created])) 200, t')
    ∧ (∀ j, j ∈ map serialize [alice] -> j ≠ created)
    ∧ (∀ r, r ∈ [alice] -> id r ≠ Some (next_id [alice])).
Proof.
  apply (C9_create_then_get (body_of "b@x.com" "B" "Y") "b@x.com" "B" "Y" [alice]).
  - vm_compute. reflexivity.
  - intros r [->|Hr]%elem_of_cons; [discriminate|inversion Hr].
  - vm_compute. reflexivity.
  - vm_compute. reflexivity.
  - vm_compute. reflexivity.
Defined.

(** * Further properties of the handlers *)

(** ** Every outcome of every route *)

Lemma stored_lookup e (t : list UserModel) :
  stored e t <-> ∃ u, head (with_email e t) = Some u.
Proof.
  split.
  - intros (u & Hu & He). destruct (head (with_email e t)) as [u0|] eqn:Hh; [eauto|].
    exfalso. now apply (proj1 (none_with_email e t) Hh u).
  - intros [u Hh]. destruct (first_with_email _ _ _ Hh) as (l1 & l2 & -> & He & _).
    exists u. split; [|exact He]. apply elem_of_app. right. left.
Qed.

Lemma not_stored_lookup e (t : list UserModel) :
  ¬ stored e t <-> head (with_email e t) = None.
Proof.
  rewrite none_with_email. split.
  - intros H r Hr He. apply H. now exists r.
  - intros H (u & Hu & He). now apply (H u).
Qed.

(** The outcomes of a create. *)
Lemma Users_post_outcome (request : Request) (t : list UserModel) :
  (∃ a, first_missing user_args request = Some a
        ∧ request !! reqparse.name a = None
        ∧ serve (POST_users request) t = (Response (validation_error a) 400, t))
  ∨ (∃ em fn ln msg,
        request !! "email" = Some em ∧ request !! "first_name" = Some fn
        ∧ request !! "last_name" = Some ln
        ∧ (em = None ∨ fn = None ∨ ln = None ∨ ∃ e, em = Some e ∧ stored e t)
        ∧ serve (POST_users request) t = (InternalServerError (IntegrityError msg), t))
  ∨ (∃ e f l,
        request !! "email" = Some (Some e) ∧ request !! "first_name" = Some (Some f)
        ∧ request !! "last_name" = Some (Some l)
        ∧ ¬ stored e t
        ∧ serve (POST_users request) t
          = (Response (JList (map serialize
                                (t ++ [mkUserModel (Some (next_id t)) (Some e) (Some f) (Some l)])))
               201,
             t ++ [mkUserModel (Some (next_id t)) (Some e) (Some f) (Some l)])).
Proof.
  destruct (arguments_cases request) as [(a & Ha & _ & Hn)|(em & fn & ln & H1 & H2 & H3)].
  { left. exists a. repeat (split; [assumption|]). now apply Users_post_missing. }
  right.
  destruct (insert_row (mkUserModel None em fn ln) t) as [t'|x] eqn:Hi.
  - right. apply insert_row_ok in Hi as Hok.
    destruct Hok as (e & f & l & -> & -> & -> & Hfresh & ->).
    exists e, f, l. repeat (split; [assumption|]).
    split; [intros (u & Hu & He); now apply (Hfresh u)|].
    now apply (Users_post_ok _ _ _ _ _ _ H1 H2 H3).
  - left. destruct (insert_row_raise _ _ _ Hi) as [msg ->].
    exists em, fn, ln, msg. repeat (split; [assumption|]).
    split; [|now apply (Users_post_rejected _ _ _ _ _ _ H1 H2 H3)].
    destruct em as [e|]; [|now left]. destruct fn as [f|]; [|now right; left].
    destruct ln as [l|]; [|now right; right; left].
    right; right; right. exists e. split; [reflexivity|].
    apply stored_lookup. destruct (head (with_email e t)) as [u|] eqn:Hh; [eauto|].
    exfalso. rewrite insert_row_fresh in Hi; [discriminate|].
    now apply none_with_email.
Qed.

(** The outcomes of an update on an email that the item route binds. *)
Lemma User_patch_outcome e (request : Request) (t : list UserModel) :
  string_converter e = true ->
  (∃ a, first_missing user_args request = Some a
        ∧ request !! reqparse.name a = None
        ∧ serve (PATCH_user e request) t = (Response (validation_error a) 400, t))
  ∨ (∃ x, is_Some (request !! "email") ∧ is_Some (request !! "first_name")
          ∧ is_Some (request !! "last_name")
          ∧ (¬ stored e t ∨ request !! "first_name" = Some None
             ∨ request !! "last_name" = Some None)
          ∧ serve (PATCH_user e request) t = (InternalServerError x, t))
  ∨ (∃ u f l,
        is_Some (request !! "email")
        ∧ request !! "first_name" = Some (Some f)
        ∧ request !! "last_name" = Some (Some l)
        ∧ head (with_email e t) = Some u
        ∧ serve (PATCH_user e request) t
          = (Response (serialize (mkUserModel (id u) (email u) (Some f) (Some l))) 200,
             map (fun r => if has_pk (id u) r then set_column col_last_name (Some l) r else r)
               (map (fun r => if has_pk (id u) r then set_column col_first_name (Some f) r else r)
                  t))).
Proof.
  intros Hb.
  destruct (arguments_cases request) as [(a & Ha & _ & Hn)|(em & fn & ln & H1 & H2 & H3)].
  { left. exists a. repeat (split; [assumption|]). now apply User_patch_missing. }
  right. pose proof (User_patch_run e _ _ _ _ t Hb H1 H2 H3) as Hrun.
  destruct (head (with_email e t)) as [u|] eqn:Hh.
  - destruct fn as [f|]; cbn [update_row] in Hrun.
    + destruct ln as [l|]; cbn [update_row] in Hrun.
      * right. exists u, f, l. rewrite H1. split; [eauto|].
        repeat (split; [assumption || reflexivity|]). exact Hrun.
      * left. eexists. rewrite H1, H2, H3. do 3 (split; [eauto|]).
        split; [now right; right|exact Hrun].
    + left. eexists. rewrite H1, H2, H3. do 3 (split; [eauto|]).
      split; [now right; left|exact Hrun].
  - left. eexists. rewrite H1, H2, H3. do 3 (split; [eauto|]).
    split; [left; now apply not_stored_lookup|exact Hrun].
Qed.

Lemma unbound_has_slash e : string_converter e = false -> e ≠ "" -> has_slash e = true.
Proof.
  unfold string_converter. intros H Hne.
  rewrite bool_decide_eq_false_2 in H by exact Hne. cbn in H.
  now destruct (has_slash e).
Qed.



(** ** Listing *)

(** X1: the list request always answers 200, whatever the table holds (an
    empty list for an empty table); its body has one entry per stored
    user, in storage order, each the serialization of that user; and the
    table is left as it was. *)
Theorem list_users_all_in_order (t : list UserModel) :
  ∃ body,
    serve GET_users t = (Response (JList body) 200, t)
    ∧ length body = length t
    ∧ (∀ (i : nat) u, t !! i = Some u -> body !! i = Some (serialize u))
    ∧ (t = [] -> body = []).
Proof.
  exists (map serialize t). split; [apply Users_get_run|].
  split; [apply length_map|]. split.
  - intros i u Hi. change (map serialize t) with (serialize <$> t).
    now rewrite list_lookup_fmap, Hi.
  - now intros ->.
Qed.

(** ** What a request can and cannot change *)

(** X2: a request that does not succeed (status 400 or above) leaves the
    table exactly as it was: a validation error, a rejected commit and an
    unhandled exception all write nothing. *)
Theorem failed_request_changes_nothing (q : http_request) (t : list UserModel) :
  400 <= status_code (fst (serve q t)) ->
  snd (serve q t) = t.
Proof.
  destruct q as [|body|e|e|e body].
  - now rewrite Users_get_run.
  - destruct (Users_post_outcome body t)
      as [(a & _ & _ & ->)|[(em & fn & ln & msg & _ & _ & _ & _ & ->)
                           |(e & f & l & _ & _ & _ & _ & ->)]];
      cbn; [reflexivity|reflexivity|lia].
  - intros _. destruct (string_converter e) eqn:Hb;
      [|exact (proj1 (unbound_changes_nothing e ∅ t Hb))].
    rewrite (User_get_run e t Hb). now destruct (head (with_email e t)).
  - destruct (string_converter e) eqn:Hb;
      [|intros _; exact (proj1 (proj2 (unbound_changes_nothing e ∅ t Hb)))].
    rewrite (User_delete_run e t Hb).
    destruct (head (with_email e t)); cbn; [lia|reflexivity].
  - destruct (string_converter e) eqn:Hb;
      [|intros _; exact (proj2 (proj2 (unbound_changes_nothing e body t Hb)))].
    destruct (User_patch_outcome e body t Hb)
      as [(a & _ & _ & ->)|[(x & _ & _ & _ & _ & ->)
                           |(u & f & l & _ & _ & _ & _ & ->)]];
      cbn; [reflexivity|reflexivity|lia].
Qed.

Lemma failed_request_changes_nothing_witness :
  snd (serve (POST_users (body_of "a@x.com" "A2" "X2")) [alice; bob]) = [alice; bob].
Proof.
  apply (failed_request_changes_nothing (POST_users (body_of "a@x.com" "A2" "X2")) [alice; bob]).
  vm_compute. discriminate.
Defined.

(** X3: the two GET routes never change the table, whether they succeed
    or not. *)
Theorem reads_change_nothing (e : string) (t : list UserModel) :
  snd (serve GET_users t) = t ∧ snd (serve (GET_user e) t) = t.
Proof.
  split; [now rewrite Users_get_run|].
  destruct (string_converter e) eqn:Hb;
    [|exact (proj1 (unbound_changes_nothing e ∅ t Hb))].
  rewrite (User_get_run e t Hb). now destruct (head (with_email e t)).
Qed.

(** X4: no handler ever answers 404, although each item handler calls
    [abort(404, "User Not Found!")]: whenever a request is answered 404,
    it is an item request on an email with a slash, which the item route
    does not bind, and the answer is the URL map's, not a resource's. *)
Theorem a_404_is_the_url_maps (q : http_request) (t : list UserModel) :
  status_code (fst (serve q t)) = 404 ->
  fst (serve q t) = RouterAnswer 404
  ∧ ∃ e, has_slash e = true
         ∧ (q = GET_user e ∨ q = DELETE_user e ∨ ∃ body, q = PATCH_user e body).
Proof.
  assert (Hin : ∀ c : Z, c ∈ [308; 404; 405] -> c = 404 -> c = 404) by auto.
  destruct q as [|body|e|e|e body].
  - rewrite Users_get_run. discriminate.
  - destruct (Users_post_outcome body t)
      as [(a & _ & _ & ->)|[(em & fn & ln & msg & _ & _ & _ & _ & ->)
                           |(e & f & l & _ & _ & _ & _ & ->)]]; discriminate.
  - destruct (email_cases e) as [Hb|[->|[Hb Hne]]].
    + rewrite (User_get_run e t Hb). destruct (head (with_email e t)); discriminate.
    + destruct (serve_empty_email ∅ t) as (-> & _). rewrite Users_get_run. discriminate.
    + destruct (serve_unbound e Hb Hne) as (cg & cd & cp & -> & _).
      cbn. intros ->. split; [reflexivity|]. exists e.
      split; [now apply unbound_has_slash|now left].
  - destruct (email_cases e) as [Hb|[->|[Hb Hne]]].
    + rewrite (User_delete_run e t Hb). destruct (head (with_email e t)); discriminate.
    + destruct (serve_empty_email ∅ t) as (_ & -> & _). discriminate.
    + destruct (serve_unbound e Hb Hne) as (cg & cd & cp & _ & -> & _).
      cbn. intros ->. split; [reflexivity|]. exists e.
      split; [now apply unbound_has_slash|now right; left].
  - destruct (email_cases e) as [Hb|[->|[Hb Hne]]].
    + destruct (User_patch_outcome e body t Hb)
        as [(a & _ & _ & ->)|[(x & _ & _ & _ & _ & ->)
                             |(u & f & l & _ & _ & _ & _ & ->)]]; discriminate.
    + destruct (serve_empty_email body t) as (_ & _ & ->). discriminate.
    + destruct (serve_unbound e Hb Hne) as (cg & cd & cp & _ & _ & -> & _).
      cbn. intros ->. split; [reflexivity|]. exists e.
      split; [now apply unbound_has_slash|right; right; eauto].
Qed.

Lemma a_404_is_the_url_maps_witness :
  fst (serve (GET_user "a/b@x.com") [alice; bob; carol]) = RouterAnswer 404
  ∧ ∃ e, has_slash e = true
         ∧ (GET_user "a/b@x.com" = GET_user e ∨ GET_user "a/b@x.com" = DELETE_user e
            ∨ ∃ body, GET_user "a/b@x.com" = PATCH_user e body).
Proof.
  apply (a_404_is_the_url_maps (GET_user "a/b@x.com") [alice; bob; carol]).
  vm_compute. reflexivity.
Defined.



(** ** Errors *)

(** X6: for an email that the item route binds (not empty, no slash) and
    that no stored user has, the not-found branch of each item handler
    ends the same way: item get, delete, and an update whose body passed
    validation all raise TypeError out of
    [abort(404, "User Not Found!")], are answered as unhandled failures,
    and leave the table unchanged. *)
Theorem unknown_email_is_unhandled (e : string) (t : list UserModel) :
  string_converter e = true ->
  ¬ stored e t ->
  serve (GET_user e) t = (InternalServerError TypeError, t)
  ∧ serve (DELETE_user e) t = (InternalServerError TypeError, t)
  ∧ ∀ (request : Request),
      is_Some (request !! "email") ->
      is_Some (request !! "first_name") ->
      is_Some (request !! "last_name") ->
      serve (PATCH_user e request) t = (InternalServerError TypeError, t).
Proof.
  intros Hb Hn. apply not_stored_lookup in Hn.
  split; [now rewrite (User_get_run e t Hb), Hn|].
  split; [now rewrite (User_delete_run e t Hb), Hn|].
  intros request [em H1] [fn H2] [ln H3].
  now rewrite (User_patch_run e _ _ _ _ t Hb H1 H2 H3), Hn.
Qed.

Lemma unknown_email_is_unhandled_witness :
  serve (GET_user "c@x.com") [alice; bob] = (InternalServerError TypeError, [alice; bob])
  ∧ serve (DELETE_user "c@x.com") [alice; bob] = (InternalServerError TypeError, [alice; bob])
  ∧ serve (PATCH_user "c@x.com" (body_of "c@x.com" "C" "Z")) [alice; bob]
    = (InternalServerError TypeError, [alice; bob]).
Proof.
  destruct (unknown_email_is_unhandled "c@x.com" [alice; bob]) as (Hg & Hd & Hp).
  - vm_compute. reflexivity.
  - intros (u & Hu & He). rewrite !elem_of_cons in Hu.
    destruct Hu as [->|[->|Hu]]; [discriminate|discriminate|inversion Hu].
  - split; [exact Hg|]. split; [exact Hd|].
    apply Hp; eexists; vm_compute; reflexivity.
Defined.

(** X7: a JSON null is a present value for the parser but not for the
    table. A create whose three fields are present and one of them null
    passes validation and is rejected at commit by [nullable=False]: the
    IntegrityError is not handled and nothing is inserted. The same holds
    for an update, on an email that the item route binds, of a stored user
    with a null first_name or last_name. *)
Theorem null_value_is_rejected_at_commit (request : Request) (t : list UserModel) :
  is_Some (request !! "email") ->
  is_Some (request !! "first_name") ->
  is_Some (request !! "last_name") ->
  (request !! "email" = Some None -> 
   ∃ msg, serve (POST_users request) t = (InternalServerError (IntegrityError msg), t))
  ∧ (request !! "first_name" = Some None ∨ request !! "last_name" = Some None ->
     (∃ msg, serve (POST_users request) t = (InternalServerError (IntegrityError msg), t))
     ∧ ∀ e, string_converter e = true -> stored e t ->
         ∃ msg, serve (PATCH_user e request) t = (InternalServerError (IntegrityError msg), t)).
Proof.
  intros [em H1] [fn H2] [ln H3].
  assert (Hpost : em = None ∨ fn = None ∨ ln = None ->
            ∃ msg, serve (POST_users request) t = (InternalServerError (IntegrityError msg), t)).
  { intros Hnull.
    assert (∃ msg, insert_row (mkUserModel None em fn ln) t = Raise (IntegrityError msg))
      as [msg Hi].
    { unfold insert_row, not_null. cbn [email first_name last_name].
      destruct em, fn, ln; try (eexists; reflexivity).
      destruct Hnull as [?|[?|?]]; discriminate. }
    exists msg. now apply (Users_post_rejected _ _ _ _ _ _ H1 H2 H3). }
  split.
  - rewrite H1. intros [= ->]. apply Hpost. now left.
  - rewrite H2, H3. intros Hnull. split.
    + apply Hpost. destruct Hnull as [[= ->]|[= ->]]; auto.
    + intros e Hb [u Hh]%stored_lookup.
      rewrite (User_patch_run e _ _ _ _ t Hb H1 H2 H3), Hh.
      destruct fn as [f|]; cbn [update_row]; [|eauto].
      destruct ln as [l|]; cbn [update_row]; [|eauto].
      destruct Hnull as [?|?]; discriminate.
Qed.

Lemma null_value_is_rejected_at_commit_witness :
  (∃ msg, serve (POST_users (<["last_name" := None]> (body_of "c@x.com" "C" "Z"))) [alice]
          = (InternalServerError (IntegrityError msg), [alice]))
  ∧ ∃ msg, serve (PATCH_user "a@x.com" (<["last_name" := None]> (body_of "c@x.com" "C" "Z")))
             [alice]
           = (InternalServerError (IntegrityError msg), [alice]).
Proof.
  destruct (null_value_is_rejected_at_commit
              (<["last_name" := None]> (body_of "c@x.com" "C" "Z")) [alice])
    as [_ H]; try (eexists; vm_compute; reflexivity).
  destruct H as [Hpost Hpatch]; [right; vm_compute; reflexivity|].
  split; [exact Hpost|].
  apply Hpatch; [vm_compute; reflexivity|].
  exists alice. split; [left|reflexivity].
Defined.

(** ** Exactly when a request succeeds *)

(** X8: a create answers 201 exactly when its body carries email,
    first_name and last_name, none of them null, and the email is not
    stored yet. Nothing else is checked: an empty string is as good a
    value as any. *)
Theorem create_succeeds_exactly_when (request : Request) (t : list UserModel) :
  status_code (fst (serve (POST_users request) t)) = 201
  <-> ∃ e f l, request !! "email" = Some (Some e)
               ∧ request !! "first_name" = Some (Some f)
               ∧ request !! "last_name" = Some (Some l)
               ∧ ¬ stored e t.
Proof.
  split.
  - destruct (Users_post_outcome request t)
      as [(a & _ & _ & ->)|[(em & fn & ln & msg & _ & _ & _ & _ & ->)
                           |(e & f & l & H1 & H2 & H3 & Hn & _)]];
      cbn; [lia|lia|]. intros _. exists e, f, l. auto.
  - intros (e & f & l & H1 & H2 & H3 & Hn).
    rewrite (Users_post_ok _ _ _ _ _ _ H1 H2 H3 (insert_row_fresh e f l t
               (proj1 (none_with_email e t) (proj1 (not_stored_lookup e t) Hn)))).
    reflexivity.
Qed.

(** X9: for an email that the item route binds (not empty, no slash),
    the item requests succeed exactly when the email is stored: item get
    answers 200 and delete answers 204 if and only if some stored user has
    the email; an update answers 200 if and only if, besides, its body
    carries email (any value), first_name and last_name (not null). *)
Theorem item_requests_succeed_exactly_when (e : string) (request : Request)
    (t : list UserModel) :
  string_converter e = true ->
  (status_code (fst (serve (GET_user e) t)) = 200 <-> stored e t)
  ∧ (status_code (fst (serve (DELETE_user e) t)) = 204 <-> stored e t)
  ∧ (status_code (fst (serve (PATCH_user e request) t)) = 200
     <-> stored e t ∧ is_Some (request !! "email")
         ∧ (∃ f, request !! "first_name" = Some (Some f))
         ∧ (∃ l, request !! "last_name" = Some (Some l))).
Proof.
  intros Hb. split; [|split].
  - rewrite stored_lookup, (User_get_run e t Hb).
    destruct (head (with_email e t)) as [u|]; cbn; split; eauto; try lia.
    intros [u Hu]. discriminate.
  - rewrite stored_lookup, (User_delete_run e t Hb).
    destruct (head (with_email e t)) as [u|]; cbn; split; eauto; try lia.
    intros [u Hu]. discriminate.
  - split.
    + destruct (User_patch_outcome e request t Hb)
        as [(a & _ & _ & ->)|[(x & _ & _ & _ & _ & ->)
                             |(u & f & l & H1 & H2 & H3 & Hh & _)]];
        cbn; [lia|lia|]. intros _.
      split; [apply stored_lookup; eauto|]. eauto.
    + intros ([u Hh]%stored_lookup & [em H1] & [f H2] & [l H3]).
      now rewrite (User_patch_run e _ _ _ _ t Hb H1 H2 H3), Hh.
Qed.

Lemma item_requests_succeed_exactly_when_witness :
  (status_code (fst (serve (GET_user "a@x.com") [alice; bob])) = 200
   <-> stored "a@x.com" [alice; bob])
  ∧ (status_code (fst (serve (DELETE_user "a@x.com") [alice; bob])) = 204
     <-> stored "a@x.com" [alice; bob])
  ∧ (status_code (fst (serve (PATCH_user "a@x.com" (names_only "B" "Y")) [alice; bob])) = 200
     <-> stored "a@x.com" [alice; bob] ∧ is_Some (names_only "B" "Y" !! "email")
         ∧ (∃ f, names_only "B" "Y" !! "first_name" = Some (Some f))
         ∧ (∃ l, names_only "B" "Y" !! "last_name" = Some (Some l))).
Proof.
  apply (item_requests_succeed_exactly_when "a@x.com" (names_only "B" "Y") [alice; bob]).
  vm_compute. reflexivity.
Defined.

(** ** The body beyond the three arguments *)

Lemma first_missing_same_arguments (r1 r2 : Request) :
  same_arguments r1 r2 ->
  first_missing user_args r1 = first_missing user_args r2.
Proof.
  intros (H1 & H2 & H3). unfold first_missing, user_args.
  rewrite !filter_cons, !filter_nil.
  cbn [reqparse.name reqparse.required reqparse.help].
  rewrite H1, H2, H3. reflexivity.
Qed.

(** X10: only email, first_name and last_name of a request are read. Two
    requests that agree on these three are answered alike and leave the
    same table, by create and by update, whatever other fields they
    carry. *)
Theorem unknown_arguments_are_ignored (r1 r2 : Request) (e : string)
    (t : list UserModel) :
  same_arguments r1 r2 ->
  serve (POST_users r1) t = serve (POST_users r2) t
  ∧ serve (PATCH_user e r1) t = serve (PATCH_user e r2) t.
Proof.
  intros Hs. pose proof (first_missing_same_arguments _ _ Hs) as Hm.
  destruct Hs as (E1 & E2 & E3).
  assert (Hu : string_converter e = false ->
               serve (PATCH_user e r1) t = serve (PATCH_user e r2) t).
  { intros Hb. destruct (decide (e = "")) as [->|Hne].
    - destruct (serve_empty_email r1 t) as (_ & _ & ->).
      now destruct (serve_empty_email r2 t) as (_ & _ & ->).
    - destruct (serve_unbound e Hb Hne) as (cg & cd & cp & _ & _ & Hp & _).
      now rewrite !Hp. }
  destruct (arguments_cases r1) as [(a & Ha & _)|(em & fn & ln & H1 & H2 & H3)].
  - assert (Ha2 : first_missing user_args r2 = Some a) by now rewrite <- Hm.
    rewrite (Users_post_missing _ _ t Ha), (Users_post_missing _ _ t Ha2).
    split; [reflexivity|].
    destruct (string_converter e) eqn:Hb; [|now apply Hu].
    now rewrite (User_patch_missing e _ _ t Hb Ha), (User_patch_missing e _ _ t Hb Ha2).
  - assert (H1' := H1). assert (H2' := H2). assert (H3' := H3).
    rewrite E1 in H1'. rewrite E2 in H2'. rewrite E3 in H3'.
    split.
    + destruct (insert_row (mkUserModel None em fn ln) t) as [t'|x] eqn:Hi.
      * now rewrite (Users_post_ok _ _ _ _ _ _ H1 H2 H3 Hi),
          (Users_post_ok _ _ _ _ _ _ H1' H2' H3' Hi).
      * now rewrite (Users_post_rejected _ _ _ _ _ _ H1 H2 H3 Hi),
          (Users_post_rejected _ _ _ _ _ _ H1' H2' H3' Hi).
    + destruct (string_converter e) eqn:Hb; [|now apply Hu].
      now rewrite (User_patch_run e _ _ _ _ t Hb H1 H2 H3),
        (User_patch_run e _ _ _ _ t Hb H1' H2' H3').
Qed.

Lemma unknown_arguments_are_ignored_witness :
  serve (POST_users (body_of "c@x.com" "C" "Z")) [alice]
  = serve (POST_users (<["id" := Some "7"]> (body_of "c@x.com" "C" "Z"))) [alice]
  ∧ serve (PATCH_user "a@x.com" (body_of "c@x.com" "C" "Z")) [alice]
    = serve (PATCH_user "a@x.com" (<["id" := Some "7"]> (body_of "c@x.com" "C" "Z"))) [alice].
Proof.
  apply (unknown_arguments_are_ignored (body_of "c@x.com" "C" "Z")
           (<["id" := Some "7"]> (body_of "c@x.com" "C" "Z")) "a@x.com" [alice]).
  repeat split; vm_compute; reflexivity.
Defined.

(** X11: parsing with [user_args] does not touch the session, and the
    namespace it returns holds the request's email, first_name and
    last_name and no other key. *)
Theorem parse_args_namespace (request : Request) (s s' : Session) (ns : Namespace) :
  reqparse.parse_args user_args request s = (Ok ns, s') ->
  s' = s
  ∧ ns !! "email" = request !! "email"
  ∧ ns !! "first_name" = request !! "first_name"
  ∧ ns !! "last_name" = request !! "last_name"
  ∧ ∀ k, k ≠ "email" -> k ≠ "first_name" -> k ≠ "last_name" -> ns !! k = None.
Proof.
  destruct (arguments_cases request) as [(a & Ha & _)|(em & fn & ln & H1 & H2 & H3)].
  - rewrite (parse_args_missing _ _ s Ha). discriminate.
  - rewrite (parse_args_present _ _ _ _ s H1 H2 H3). intros [= <- <-].
    rewrite H1, H2, H3. split; [reflexivity|].
    repeat split; try (now simplify_map_eq).
    intros k K1 K2 K3. now rewrite !lookup_insert_ne, lookup_empty.
Qed.

Lemma parse_args_namespace_witness :
  ∃ ns, reqparse.parse_args user_args (<["id" := Some "7"]> (body_of "c@x.com" "C" "Z"))
          (begin [alice])
        = (Ok ns, begin [alice])
        ∧ ns !! "email" = Some (Some "c@x.com")
        ∧ ns !! "id" = None.
Proof.
  exists (<["last_name" := Some "Z"]>
            (<["first_name" := Some "C"]> (<["email" := Some "c@x.com"]> ∅))).
  split; [vm_compute; reflexivity|].
  destruct (parse_args_namespace (<["id" := Some "7"]> (body_of "c@x.com" "C" "Z"))
              (begin [alice]) (begin [alice])
              (<["last_name" := Some "Z"]>
                 (<["first_name" := Some "C"]> (<["email" := Some "c@x.com"]> ∅))))
    as (_ & He & _ & _ & Hk); [vm_compute; reflexivity|].
  split; [rewrite He; vm_compute; reflexivity|].
  apply Hk; discriminate.
Defined.

(** ** Update, once more *)

Section Update.

Variables (pk : option Z) (f l : string).

Lemma with_names_id r : id (with_names pk f l r) = id r.
Proof. unfold with_names. now destruct (has_pk pk r). Qed.

Lemma with_names_email r : email (with_names pk f l r) = email r.
Proof. unfold with_names. now destruct (has_pk pk r). Qed.

Lemma with_names_twice r :
  with_names pk f l (with_names pk f l r) = with_names pk f l r.
Proof.
  unfold with_names at 1. unfold has_pk. rewrite with_names_id. fold (has_pk pk r).
  destruct (has_pk pk r) eqn:E; [|reflexivity].
  unfold with_names. now rewrite E.
Qed.

(** The two UPDATE statements of a commit, as one pass over the table. *)
Lemma update_names (t : list UserModel) :
  map (fun r => if has_pk pk r then set_column col_last_name (Some l) r else r)
    (map (fun r => if has_pk pk r then set_column col_first_name (Some f) r else r) t)
  = map (with_names pk f l) t.
Proof.
  rewrite map_map. apply map_ext. intros r. unfold with_names.
  destruct (has_pk pk r) eqn:E.
  - unfold has_pk in *. cbn [set_column id]. now rewrite E.
  - now rewrite E.
Qed.

Lemma with_email_with_names e (t : list UserModel) :
  with_email e (map (with_names pk f l) t) = map (with_names pk f l) (with_email e t).
Proof.
  unfold with_email. induction t as [|r t IH]; [reflexivity|].
  cbn [map]. rewrite !filter_cons. unfold has_email in *.
  rewrite with_names_email.
  case_decide; cbn [map]; now rewrite IH.
Qed.

End Update.

Lemma with_names_self u f l :
  with_names (id u) f l u = mkUserModel (id u) (email u) (Some f) (Some l).
Proof. unfold with_names. now rewrite (proj2 (has_pk_true (id u) u) eq_refl). Qed.

Lemma head_map {A B} (g : A -> B) (xs : list A) : head (map g xs) = g <$> head xs.
Proof. now destruct xs. Qed.

(** X12: an update never adds or removes a row and never changes an id or
    an email: whatever the email and the body, the ids and the emails of
    the table after the request are those before it, in the same order. *)
Theorem patch_keeps_ids_and_emails (e : string) (request : Request)
    (t : list UserModel) :
  map id (snd (serve (PATCH_user e request) t)) = map id t
  ∧ map email (snd (serve (PATCH_user e request) t)) = map email t
  ∧ length (snd (serve (PATCH_user e request) t)) = length t.
Proof.
  destruct (string_converter e) eqn:Hb;
    [|now rewrite (proj2 (proj2 (unbound_changes_nothing e request t Hb)))].
  destruct (User_patch_outcome e request t Hb)
    as [(a & _ & _ & ->)|[(x & _ & _ & _ & _ & ->)
                         |(u & f & l & _ & _ & _ & _ & ->)]];
    cbn [snd]; [repeat split..|].
  rewrite update_names, !map_map, length_map.
  repeat split; apply map_ext; intros r;
    [apply with_names_id|apply with_names_email].
Qed.

(** X13: an update is idempotent: repeating the same request on the table
    it left gives the same answer and the same table. *)
Theorem patch_is_idempotent (e : string) (request : Request) (t : list UserModel) :
  serve (PATCH_user e request) (snd (serve (PATCH_user e request) t))
  = serve (PATCH_user e request) t.
Proof.
  destruct (email_cases e) as [Hb|[->|[Hb Hne]]].
  2: { now destruct (serve_empty_email request t) as (_ & _ & ->). }
  2: { destruct (serve_unbound e Hb Hne) as (cg & cd & cp & _ & _ & Hp & _).
       now rewrite !Hp. }
  destruct (User_patch_outcome e request t Hb)
    as [(a & _ & _ & Hs)|[(x & _ & _ & _ & _ & Hs)
                         |(u & f & l & [em H1] & H2 & H3 & Hh & Hs)]];
    try (rewrite Hs at 1; cbn [snd]; reflexivity).
  rewrite Hs. cbn [snd]. rewrite update_names.
  rewrite (User_patch_run e _ _ _ _ _ Hb H1 H2 H3).
  rewrite with_email_with_names, head_map, Hh. cbn [fmap option_fmap option_map].
  cbn [update_row]. rewrite update_names, with_names_id.
  rewrite map_map. f_equal.
  - f_equal. rewrite with_names_self. reflexivity.
  - apply map_ext. intros r. apply with_names_twice.
Qed.

(** X14: what a successful update answers is what an item get on the same
    email answers right after it. *)
Theorem patch_then_get (e : string) (request : Request) (t t' : list UserModel)
    (r : response) :
  serve (PATCH_user e request) t = (r, t') ->
  status_code r = 200 ->
  serve (GET_user e) t' = (r, t').
Proof.
  intros Hs Hr.
  assert (Hb : string_converter e = true).
  { apply (patch_success_is_bound e request t). now rewrite Hs. }
  revert Hs Hr.
  destruct (User_patch_outcome e request t Hb)
    as [(a & _ & _ & ->)|[(x & _ & _ & _ & _ & ->)
                         |(u & f & l & _ & _ & _ & Hh & ->)]];
    intros [<- <-]%pair_equal_spec; cbn [status_code]; try lia. intros _.
  rewrite update_names, (User_get_run e _ Hb).
  rewrite with_email_with_names, head_map, Hh. cbn [fmap option_fmap option_map].
  now rewrite with_names_self.
Qed.

Lemma patch_then_get_witness :
  serve (GET_user "b@x.com")
    (snd (serve (PATCH_user "b@x.com" (body_of "z@x.com" "B2" "Y2")) [alice; bob]))
  = (fst (serve (PATCH_user "b@x.com" (body_of "z@x.com" "B2" "Y2")) [alice; bob]),
     snd (serve (PATCH_user "b@x.com" (body_of "z@x.com" "B2" "Y2")) [alice; bob])).
Proof.
  apply (patch_then_get "b@x.com" (body_of "z@x.com" "B2" "Y2") [alice; bob]).
  - vm_compute. reflexivity.
  - vm_compute. reflexivity.
Defined.

(** ** Create and delete, composed *)

Lemma delete_row_fresh pk (t : list UserModel) :
  (∀ r, r ∈ t -> id r ≠ pk) -> delete_row pk t = t.
Proof.
  unfold delete_row. induction t as [|x t IH]; [reflexivity|]. intros H.
  rewrite filter_cons_True by (apply has_pk_false, H; left).
  rewrite IH; [reflexivity|]. intros r Hr. apply H. now right.
Qed.

Lemma lookup_created e f l (t : list UserModel) i :
  ¬ stored e t ->
  head (with_email e (t ++ [mkUserModel i (Some e) (Some f) (Some l)]))
  = Some (mkUserModel i (Some e) (Some f) (Some l)).
Proof.
  intros Hn. unfold with_email. rewrite filter_app. fold (with_email e t).
  rewrite (with_email_none e t)
    by (apply none_with_email; now apply not_stored_lookup).
  now rewrite filter_cons_True by (apply has_email_true; reflexivity).
Qed.

(** X15: creating a user and then deleting that email gives the table
    back as it was: on a table where e is not stored, for an email e that
    the item route binds (not empty, no slash), a create of (e, f, l)
    followed by a delete of e answers 201 and then 204 and leaves every
    row as before the two requests. *)
Theorem create_then_delete_restores (request : Request) (e f l : string)
    (t : list UserModel) :
  string_converter e = true ->
  ¬ stored e t ->
  request !! "email" = Some (Some e) ->
  request !! "first_name" = Some (Some f) ->
  request !! "last_name" = Some (Some l) ->
  status_code (fst (serve (POST_users request) t)) = 201
  ∧ status_code (fst (serve (DELETE_user e) (snd (serve (POST_users request) t)))) = 204
  ∧ snd (serve (DELETE_user e) (snd (serve (POST_users request) t))) = t.
Proof.
  intros Hb Hn H1 H2 H3.
  rewrite (Users_post_ok _ _ _ _ _ _ H1 H2 H3 (insert_row_fresh e f l t
             (proj1 (none_with_email e t) (proj1 (not_stored_lookup e t) Hn)))).
  cbn [fst snd status_code]. split; [reflexivity|].
  rewrite (User_delete_run e _ Hb), (lookup_created e f l t _ Hn).
  cbn [fst snd status_code id].
  split; [reflexivity|]. unfold delete_row. rewrite filter_app.
  fold (delete_row (Some (next_id t)) t).
  rewrite delete_row_fresh by (intros r Hr; now apply next_id_fresh).
  rewrite filter_cons_False, filter_nil; [apply app_nil_r|].
  rewrite (proj2 (has_pk_true _ _)); [discriminate|reflexivity].
Qed.

Lemma create_then_delete_restores_witness :
  status_code (fst (serve (POST_users (body_of "c@x.com" "C" "Z")) [alice; bob])) = 201
  ∧ status_code (fst (serve (DELETE_user "c@x.com")
                        (snd (serve (POST_users (body_of "c@x.com" "C" "Z")) [alice; bob]))))
    = 204
  ∧ snd (serve (DELETE_user "c@x.com")
           (snd (serve (POST_users (body_of "c@x.com" "C" "Z")) [alice; bob])))
    = [alice; bob].
Proof.
  apply (create_then_delete_restores (body_of "c@x.com" "C" "Z") "c@x.com" "C" "Z"
           [alice; bob]); try (vm_compute; reflexivity).
  intros (u & Hu & He). rewrite !elem_of_cons in Hu.
  destruct Hu as [->|[->|Hu]]; [discriminate|discriminate|inversion Hu].
Defined.

(** X16: on a table that satisfies the schema, deleting a stored email
    that the item route binds (not empty, no slash) answers 204, with no
    body, removes exactly one row, the one of the user with that email,
    keeps all other rows in their order, and leaves no user with that
    email. *)
Theorem delete_removes_exactly_one_row (e : string) (t : list UserModel) :
  string_converter e = true ->
  schema_ok t -> stored e t ->
  ∃ l1 u l2,
    t = l1 ++ u :: l2
    ∧ email u = Some e
    ∧ serve (DELETE_user e) t = (NoContent 204, l1 ++ l2)
    ∧ ¬ stored e (l1 ++ l2)
    ∧ S (length (l1 ++ l2)) = length t.
Proof.
  intros Hb Hok (u & Hu & He).
  destruct (User_delete_stored e t u Hb Hok Hu He) as (l1 & l2 & -> & Hs & Hnone).
  exists l1, u, l2. repeat (split; [assumption || reflexivity|]).
  split; [intros (r & Hr & Hre); now apply (Hnone r)|].
  rewrite !length_app. cbn [length]. lia.
Qed.

Lemma delete_removes_exactly_one_row_witness :
  ∃ l1 u l2,
    [alice; bob] = l1 ++ u :: l2
    ∧ email u = Some "a@x.com"
    ∧ serve (DELETE_user "a@x.com") [alice; bob] = (NoContent 204, l1 ++ l2)
    ∧ ¬ stored "a@x.com" (l1 ++ l2)
    ∧ S (length (l1 ++ l2)) = length [alice; bob].
Proof.
  apply (delete_removes_exactly_one_row "a@x.com" [alice; bob]).
  - vm_compute. reflexivity.
  - apply (bool_decide_unpack _). vm_compute. exact I.
  - exists alice. split; [left|reflexivity].
Defined.

(** X17: deleting frees the email: on a table that satisfies the schema,
    for a stored email e that the item route binds (not empty, no slash),
    a create with e is an unhandled failure (500), and after the delete of
    e the same create is accepted with 201. *)
Theorem delete_frees_email (request : Request) (e f l : string) (t : list UserModel) :
  string_converter e = true ->
  schema_ok t -> stored e t ->
  request !! "email" = Some (Some e) ->
  request !! "first_name" = Some (Some f) ->
  request !! "last_name" = Some (Some l) ->
  status_code (fst (serve (POST_users request) t)) = 500
  ∧ status_code (fst (serve (POST_users request) (snd (serve (DELETE_user e) t)))) = 201.
Proof.
  intros Hb Hok Hst H1 H2 H3. split.
  - destruct Hst as (u & Hu & He).
    destruct (insert_row_duplicate (Some e) (Some f) (Some l) t u Hu He) as [msg Hi].
    now rewrite (Users_post_rejected _ _ _ _ _ _ H1 H2 H3 Hi).
  - destruct Hst as (u & Hu & He).
    destruct (User_delete_stored e t u Hb Hok Hu He) as (l1 & l2 & -> & -> & Hnone).
    cbn [snd].
    now rewrite (Users_post_ok _ _ _ _ _ _ H1 H2 H3 (insert_row_fresh e f l _ Hnone)).
Qed.

Lemma delete_frees_email_witness :
  status_code (fst (serve (POST_users (body_of "a@x.com" "A2" "X2")) [alice; bob])) = 500
  ∧ status_code (fst (serve (POST_users (body_of "a@x.com" "A2" "X2"))
                        (snd (serve (DELETE_user "a@x.com") [alice; bob])))) = 201.
Proof.
  apply (delete_frees_email (body_of "a@x.com" "A2" "X2") "a@x.com" "A2" "X2" [alice; bob]);
    try (vm_compute; reflexivity).
  - apply (bool_decide_unpack _). vm_compute. exact I.
  - exists alice. split; [left|reflexivity].
Defined.

(** X18: what a successful create answers is the list as it stands after
    the create: whenever a create answers 201, a list request on the table
    it left answers 200 with the same body. *)
Theorem create_answer_is_the_list (request : Request) (t t' : list UserModel)
    (body : json) :
  serve (POST_users request) t = (Response body 201, t') ->
  serve GET_users t' = (Response body 200, t').
Proof.
  destruct (Users_post_outcome request t)
    as [(a & _ & _ & ->)|[(em & fn & ln & msg & _ & _ & _ & _ & ->)
                         |(e & f & l & _ & _ & _ & _ & ->)]];
    intros [Hr <-]%pair_equal_spec; try discriminate.
  injection Hr as <-. apply Users_get_run.
Qed.

Lemma create_answer_is_the_list_witness :
  serve GET_users (snd (serve (POST_users (body_of "c@x.com" "C" "Z")) [alice]))
  = (Response (JList (map serialize [alice; mkUserModel (Some 2) (Some "c@x.com")
                                              (Some "C") (Some "Z")])) 200,
     snd (serve (POST_users (body_of "c@x.com" "C" "Z")) [alice])).
Proof.
  apply (create_answer_is_the_list (body_of "c@x.com" "C" "Z") [alice]).
  vm_compute. reflexivity.
Defined.

(** ** Ids *)

Section Ids.

Implicit Types (t : list UserModel) (lo : Z).

Lemma ascending_weaken lo lo' t : lo' <= lo -> ascending lo t -> ascending lo' t.
Proof.
  destruct t as [|u t]; [easy|]. cbn [ascending].
  destruct (id u); [|easy]. intros Hle [Hlt Ht]. split; [lia|exact Ht].
Qed.

Lemma ascending_filter (P : UserModel -> Prop) `{∀ x, Decision (P x)} lo t :
  ascending lo t -> ascending lo (filter P t).
Proof.
  revert lo. induction t as [|u t IH]; intros lo; [easy|].
  cbn [ascending]. destruct (id u) as [i|] eqn:Hi; [|easy]. intros [Hlt Ht].
  rewrite filter_cons. case_decide.
  - cbn [ascending]. rewrite Hi. split; [exact Hlt|now apply IH].
  - apply (ascending_weaken i); [lia|now apply IH].
Qed.

Lemma ascending_map (g : UserModel -> UserModel) lo t :
  (∀ r, id (g r) = id r) -> ascending lo t -> ascending lo (map g t).
Proof.
  intros Hg. revert lo. induction t as [|u t IH]; intros lo; [easy|].
  cbn [map ascending]. rewrite Hg. destruct (id u); [|easy].
  intros [Hlt Ht]. split; [exact Hlt|now apply IH].
Qed.

Lemma ascending_snoc lo t m e f l :
  ascending lo t -> lo < m ->
  (∀ r i, r ∈ t -> id r = Some i -> i < m) ->
  ascending lo (t ++ [mkUserModel (Some m) e f l]).
Proof.
  revert lo. induction t as [|u t IH]; intros lo.
  - cbn. auto.
  - cbn [app ascending]. destruct (id u) as [i|] eqn:Hi; [|easy].
    intros [Hlt Ht] Hm Hall. split; [exact Hlt|].
    apply IH; [exact Ht|apply (Hall u); [left|exact Hi]|].
    intros r j Hr. apply Hall. now right.
Qed.

Lemma next_id_above t r i : r ∈ t -> id r = Some i -> i < next_id t.
Proof.
  intros Hr Hi. destruct (max_id_bound t r i Hr Hi) as (m & Hm & Hle).
  unfold next_id. rewrite Hm. lia.
Qed.

Lemma next_id_positive t : ascending 0 t -> 0 < next_id t.
Proof.
  destruct t as [|u t]; [reflexivity|]. cbn [ascending].
  destruct (id u) as [i|] eqn:Hi; [|easy]. intros [Hlt _].
  pose proof (next_id_above (u :: t) u i) as H. 
  assert (i < next_id (u :: t)) by (apply H; [left|exact Hi]). lia.
Qed.

Lemma serve_preserves_ascending q t :
  ascending 0 t -> ascending 0 (snd (serve q t)).
Proof.
  intros Ha. destruct q as [|body|e|e|e body].
  - now rewrite Users_get_run.
  - destruct (Users_post_outcome body t)
      as [(a & _ & _ & ->)|[(em & fn & ln & msg & _ & _ & _ & _ & ->)
                           |(e & f & l & _ & _ & _ & _ & ->)]];
      cbn [snd]; [exact Ha|exact Ha|].
    apply ascending_snoc; [exact Ha|now apply next_id_positive|].
    intros r i. apply next_id_above.
  - destruct (string_converter e) eqn:Hb;
      [|now rewrite (proj1 (unbound_changes_nothing e ∅ t Hb))].
    rewrite (User_get_run e t Hb). now destruct (head (with_email e t)).
  - destruct (string_converter e) eqn:Hb;
      [|now rewrite (proj1 (proj2 (unbound_changes_nothing e ∅ t Hb)))].
    rewrite (User_delete_run e t Hb). destruct (head (with_email e t)); [|exact Ha].
    cbn [snd]. unfold delete_row. now apply ascending_filter.
  - destruct (string_converter e) eqn:Hb;
      [|now rewrite (proj2 (proj2 (unbound_changes_nothing e body t Hb)))].
    destruct (User_patch_outcome e body t Hb)
      as [(a & _ & _ & ->)|[(x & _ & _ & _ & _ & ->)
                           |(u & f & l & _ & _ & _ & _ & ->)]];
      cbn [snd]; [exact Ha|exact Ha|].
    rewrite update_names. apply ascending_map; [apply with_names_id|exact Ha].
Qed.

End Ids.

(** X19: in every reachable table each row has an id, an email, a
    first_name and a last_name, none of them null; the ids are positive and
    strictly increasing in storage order; and every id in use is below the
    id the next create will be given. *)
Theorem reachable_rows_complete_ids_increasing (t : list UserModel) :
  reachable t ->
  Forall complete t
  ∧ ascending 0 t
  ∧ ∀ r, r ∈ t -> ∃ i, id r = Some i ∧ 0 < i < next_id t.
Proof.
  intros Hr.
  assert (Ha : ascending 0 t).
  { induction Hr as [|q t _ IH]; [exact I|]. now apply serve_preserves_ascending. }
  pose proof (rows_complete _ (reachable_schema_ok t Hr)) as Hc.
  split; [exact Hc|]. split; [exact Ha|].
  intros r Hin. rewrite Forall_forall in Hc. destruct (Hc r Hin) as ([i Hi] & _).
  exists i. split; [exact Hi|]. split; [|now apply (next_id_above t r)].
  clear Hr Hc. revert Ha Hin. generalize 0. induction t as [|u t IH]; intros lo Ha Hin.
  - inversion Hin.
  - cbn [ascending] in Ha. destruct (id u) as [j|] eqn:Hj; [|easy].
    destruct Ha as [Hlt Ht]. apply elem_of_cons in Hin as [->|Hin].
    + rewrite Hi in Hj. injection Hj as ->. exact Hlt.
    + specialize (IH j Ht Hin). lia.
Qed.

Lemma reachable_rows_complete_ids_increasing_witness :
  Forall complete [alice; bob]
  ∧ ascending 0 [alice; bob]
  ∧ ∀ r, r ∈ [alice; bob] -> ∃ i, id r = Some i ∧ 0 < i < next_id [alice; bob].
Proof.
  apply (reachable_rows_complete_ids_increasing [alice; bob]).
  exact (reachable_serve (POST_users (body_of "b@x.com" "B" "Y")) _
           (reachable_serve (POST_users (body_of "a@x.com" "A" "X")) [] reachable_empty)).
Defined.

(** ** Marshalling *)

(** X20: marshalling through [userFields] never fails, whatever the
    handler returned: a user, a text, nothing, a number, or a list of
    these, nested or not. No MarshallingException comes out of this
    program's field table. *)
Theorem marshal_never_fails : ∀ data : pyobj, ∃ j, marshal data userFields = Ok j.
Proof.
  fix IH 1. intros [|z|s|u|l].
  - eexists. reflexivity.
  - eexists. reflexivity.
  - eexists. reflexivity.
  - eexists. apply marshal_PyUser.
  - cbn [marshal].
    assert (Hl : ∃ js, mapM (fun d => marshal d userFields) l = Ok js).
    { induction l as [|d l IHl]; [eexists; reflexivity|].
      cbn [mapM]. destruct (IH d) as [j ->].
      destruct IHl as [js Hjs]. cbn [mapM] in Hjs. rewrite Hjs. eauto. }
    destruct Hl as [js ->]. eexists. reflexivity.
Qed.

(** ** Item get against the other requests *)

Lemma NoDup_map_inj {B} (g : UserModel -> B) (t : list UserModel) x y :
  NoDup (map g t) -> x ∈ t -> y ∈ t -> g x = g y -> x = y.
Proof.
  induction t as [|z t IH]; [intros _ Hx; inversion Hx|].
  cbn [map]. intros [Hz Ht]%NoDup_cons Hx Hy Hg.
  assert (Hin : ∀ r, r ∈ t -> g r ∈ map g t).
  { intros r Hr. change (map g t) with (g <$> t). now apply list_elem_of_fmap_2. }
  apply elem_of_cons in Hx as [->|Hx]; apply elem_of_cons in Hy as [->|Hy].
  - reflexivity.
  - exfalso. apply Hz. rewrite Hg. now apply Hin.
  - exfalso. apply Hz. rewrite <- Hg. now apply Hin.
  - now apply IH.
Qed.

Lemma with_email_app e (l1 l2 : list UserModel) :
  with_email e (l1 ++ l2) = with_email e l1 ++ with_email e l2.
Proof. unfold with_email. apply filter_app. Qed.

Lemma with_email_other e e' u (l : list UserModel) :
  email u = Some e -> e ≠ e' -> with_email e' (u :: l) = with_email e' l.
Proof.
  intros He Hne. unfold with_email. apply filter_cons_False.
  rewrite has_email_true, He. congruence.
Qed.

(** X21: what item get answers for a stored email that the item route
    binds (not empty, no slash) is one of the entries of the list
    response, and it carries that email. *)
Theorem get_answer_is_in_the_list (e : string) (t : list UserModel) :
  string_converter e = true ->
  stored e t ->
  ∃ u, u ∈ t ∧ email u = Some e
       ∧ serve (GET_user e) t = (Response (serialize u) 200, t)
       ∧ ∃ body, fst (serve GET_users t) = Response (JList body) 200
                 ∧ serialize u ∈ body.
Proof.
  intros Hb [u Hh]%stored_lookup.
  destruct (first_with_email _ _ _ Hh) as (l1 & l2 & Ht & He & _).
  assert (Hu : u ∈ t) by (rewrite Ht; apply elem_of_app; right; left).
  exists u. repeat (split; [assumption|]).
  split; [now rewrite (User_get_run e t Hb), Hh|].
  exists (map serialize t). rewrite Users_get_run. split; [reflexivity|].
  change (map serialize t) with (serialize <$> t). now apply list_elem_of_fmap_2.
Qed.

Lemma get_answer_is_in_the_list_witness :
  ∃ u, u ∈ [alice; bob] ∧ email u = Some "b@x.com"
       ∧ serve (GET_user "b@x.com") [alice; bob] = (Response (serialize u) 200, [alice; bob])
       ∧ ∃ body, fst (serve GET_users [alice; bob]) = Response (JList body) 200
                 ∧ serialize u ∈ body.
Proof.
  apply (get_answer_is_in_the_list "b@x.com" [alice; bob]).
  - vm_compute. reflexivity.
  - exists bob. split; [right; left|reflexivity].
Defined.

(** X22: a create, an update or a delete aimed at one email does not
    change what item get answers for any other email: on a table that
    satisfies the schema, for e different from e', the answer of item get
    on e' is the same before and after a delete of e, an update of e, and
    a create whose body carries the email e. The email e' is not empty:
    with no email the path is that of the collection, and the answer is
    the list, which such requests do change. *)
Theorem other_emails_are_untouched (e e' : string) (body : Request)
    (t : list UserModel) :
  schema_ok t -> e ≠ e' -> e' ≠ "" ->
  fst (serve (GET_user e') (snd (serve (DELETE_user e) t))) = fst (serve (GET_user e') t)
  ∧ fst (serve (GET_user e') (snd (serve (PATCH_user e body) t)))
    = fst (serve (GET_user e') t)
  ∧ (body !! "email" = Some (Some e) ->
     fst (serve (GET_user e') (snd (serve (POST_users body) t)))
     = fst (serve (GET_user e') t)).
Proof.
  intros Hok Hne Hne'.
  destruct (string_converter e') eqn:Hb'.
  2: { destruct (serve_unbound e' Hb' Hne') as (cg & cd & cp & Hg & _).
       rewrite !Hg. repeat split. }
  split; [|split].
  - destruct (string_converter e) eqn:Hb;
      [|now rewrite (proj1 (proj2 (unbound_changes_nothing e ∅ t Hb)))].
    rewrite (User_delete_run e t Hb).
    destruct (head (with_email e t)) as [u|] eqn:Hh; [|reflexivity].
    cbn [snd]. destruct (first_with_email _ _ _ Hh) as (l1 & l2 & -> & He & _).
    rewrite (delete_row_at (id u) l1 u l2 eq_refl (id_primary_key _ Hok)).
    rewrite !(User_get_run e' _ Hb'), !with_email_app, (with_email_other e e' u l2 He Hne).
    now destruct (head (with_email e' l1 ++ with_email e' l2)).
  - destruct (string_converter e) eqn:Hb;
      [|now rewrite (proj2 (proj2 (unbound_changes_nothing e body t Hb)))].
    destruct (User_patch_outcome e body t Hb)
      as [(a & _ & _ & ->)|[(x & _ & _ & _ & _ & ->)
                           |(u & f & l & _ & _ & _ & Hh & ->)]];
      cbn [snd]; [reflexivity|reflexivity|].
    rewrite update_names, !(User_get_run e' _ Hb'), with_email_with_names, head_map.
    destruct (head (with_email e' t)) as [u'|] eqn:Hh'; [|reflexivity].
    cbn [fmap option_fmap option_map fst]. do 2 f_equal.
    unfold with_names. destruct (has_pk (id u) u') eqn:Hpk; [|reflexivity]. exfalso.
    apply has_pk_true in Hpk.
    destruct (first_with_email _ _ _ Hh) as (l1 & l2 & Ht & He & _).
    destruct (first_with_email _ _ _ Hh') as (l1' & l2' & Ht' & He' & _).
    assert (Hu : u ∈ t) by (rewrite Ht; apply elem_of_app; right; left).
    assert (Hu' : u' ∈ t) by (rewrite Ht'; apply elem_of_app; right; left).
    pose proof (NoDup_map_inj id t u' u (id_primary_key _ Hok) Hu' Hu Hpk) as ->.
    congruence.
  - intros H1.
    destruct (Users_post_outcome body t)
      as [(a & _ & _ & ->)|[(em & fn & ln & msg & _ & _ & _ & _ & ->)
                           |(e0 & f & l & H1' & _ & _ & _ & ->)]];
      cbn [snd]; [reflexivity|reflexivity|].
    rewrite H1 in H1'. injection H1' as <-.
    rewrite !(User_get_run e' _ Hb'), with_email_app.
    rewrite (with_email_other e e'
               (mkUserModel (Some (next_id t)) (Some e) (Some f) (Some l)) [] eq_refl Hne).
    unfold with_email at 2. rewrite filter_nil, app_nil_r.
    now destruct (head (with_email e' t)).
Qed.

Lemma other_emails_are_untouched_witness :
  fst (serve (GET_user "b@x.com") (snd (serve (DELETE_user "a@x.com") [alice; bob])))
  = fst (serve (GET_user "b@x.com") [alice; bob])
  ∧ fst (serve (GET_user "b@x.com")
           (snd (serve (PATCH_user "a@x.com" (body_of "a@x.com" "A2" "X2")) [alice; bob])))
    = fst (serve (GET_user "b@x.com") [alice; bob])
  ∧ fst (serve (GET_user "b@x.com")
           (snd (serve (POST_users (body_of "a@x.com" "A2" "X2")) [alice; bob])))
    = fst (serve (GET_user "b@x.com") [alice; bob]).
Proof.
  destruct (other_emails_are_untouched "a@x.com" "b@x.com" (body_of "a@x.com" "A2" "X2")
              [alice; bob]) as (Hd & Hp & Hc).
  - apply (bool_decide_unpack _). vm_compute. exact I.
  - discriminate.
  - discriminate.
  - split; [exact Hd|]. split; [exact Hp|]. apply Hc. vm_compute. reflexivity.
Defined.
